(** * avcnv: batch conversion orchestrator

    A shallow embedding of the conversion core of avcnv
    ([converter.py], [routes.py], [models.py]) and the properties of its
    progress parser, compatibility policy, command builder, process registry,
    conversion runner and batch orchestrator.

    Modelling conventions.
    - Python floats are modelled as exact rationals ([Q]); [round(x, 2)] is
      round-half-to-even on the exact value.  Every number the code stores
      (a file's progress, the aggregate progress) is kept in lowest terms, so
      stored values are compared with [=]; intermediate values with [==].
    - Python [str] is [string] (a sequence of 8-bit characters); the regular
      expression class [\d] is the ten ASCII digits.
    - [dict]s keyed by task identifier are [gmap string _]; the process object
      shared between the registry and the running conversion lives in a heap
      of processes addressed by a handle.
    - [asyncio] coroutines run on one thread: a handler without [await] is
      atomic, and other handlers run only while a coroutine is suspended at an
      [await].  What happens during a suspension is given by a script. *)

From Stdlib Require Import ZArith QArith Qround Qminmax Lqa String Ascii List Lia.
From stdpp Require Import base option gmap strings list pretty.

Local Open Scope string_scope.

(** ** Numbers *)

Module Num.

(** Python's [round(y)] for an exact value: nearest integer, ties to even. *)
Definition round_half_even (y : Q) : Z :=
  let f := Qfloor y in
  match (y - inject_Z f ?= 1 # 2)%Q with
  | Lt => f
  | Gt => (f + 1)%Z
  | Eq => if Z.even f then f else (f + 1)%Z
  end.

(** [round(x, 2)], stored in lowest terms. *)
Definition round2 (x : Q) : Q :=
  Qred (inject_Z (round_half_even (x * 100)) / 100).

(** Python's [min(a, b)]: the first argument unless the second is smaller. *)
Definition pymin (a b : Q) : Q := if Qle_bool a b then a else b.

(** [sum(xs)] *)
Definition qsum (xs : list Q) : Q := foldr Qplus 0%Q xs.

Definition in_percent (x : Q) : Prop := (0 <= x /\ x <= 100)%Q.

End Num.

(** ** Text: the string operations the converter relies on *)

Module Text.

Definition is_digit (c : ascii) : bool :=
  let n := N_of_ascii c in (48 <=? n)%N && (n <=? 57)%N.

Definition digit_val (c : ascii) : Z := (Z.of_N (N_of_ascii c) - 48)%Z.

(** The longest prefix of digits, and what follows it (a greedy [\d*]). *)
Fixpoint span_digits (s : string) : string * string :=
  match s with
  | String c t =>
      if is_digit c
      then let '(ds, r) := span_digits t in (String c ds, r)
      else (EmptyString, s)
  | EmptyString => (EmptyString, EmptyString)
  end.

(** [int(ds)] for a string of digits. *)
Fixpoint int_of_digits_from (acc : Z) (ds : string) : Z :=
  match ds with
  | String c t => int_of_digits_from (10 * acc + digit_val c)%Z t
  | EmptyString => acc
  end.

Definition int_of_digits (ds : string) : Z := int_of_digits_from 0 ds.

(** [s] without the prefix [p], when it starts with [p]. *)
Fixpoint strip_prefix (p s : string) : option string :=
  match p, s with
  | EmptyString, _ => Some s
  | String a p', String b s' =>
      if Ascii.eqb a b then strip_prefix p' s' else None
  | String _ _, EmptyString => None
  end.

(** Exactly [n] digits at the start of [s] (a [\d{n}]). *)
Fixpoint take_digits (n : nat) (s : string) : option (string * string) :=
  match n with
  | O => Some (EmptyString, s)
  | S n' =>
      match s with
      | String c t =>
          if is_digit c
          then match take_digits n' t with
               | Some (ds, r) => Some (String c ds, r)
               | None => None
               end
          else None
      | EmptyString => None
      end
  end.

(** [re.search]: the match of an anchored pattern at the leftmost position
    of [s] where it matches. *)
Fixpoint re_search {A} (m : string -> option A) (s : string) : option A :=
  match m s with
  | Some x => Some x
  | None =>
      match s with
      | String _ t => re_search m t
      | EmptyString => None
      end
  end.

Definition lower_ascii (c : ascii) : ascii :=
  let n := N_of_ascii c in
  if (65 <=? n)%N && (n <=? 90)%N then ascii_of_N (n + 32) else c.

(** [str.lower] *)
Fixpoint lower (s : string) : string :=
  match s with
  | String c t => String (lower_ascii c) (lower t)
  | EmptyString => EmptyString
  end.

(** [str.lstrip('.')] *)
Fixpoint lstrip_dot (s : string) : string :=
  match s with
  | String c t => if Ascii.eqb c "." then lstrip_dot t else s
  | EmptyString => EmptyString
  end.

(** Every character of [s] is a digit. *)
Fixpoint all_digits (s : string) : bool :=
  match s with
  | String c t => is_digit c && all_digits t
  | EmptyString => true
  end.


(** Python truthiness of a [str]. *)
Definition truthy (s : string) : bool :=
  match s with EmptyString => false | String _ _ => true end.

(** Python truthiness of an [Optional[str]]. *)
Definition truthy_opt (o : option string) : bool :=
  match o with Some s => truthy s | None => false end.

End Text.

(** ** Paths: the parts of [pathlib.Path] the code uses (POSIX flavour,
    relative file names) *)

Module PyPath.

(** [str.split(sep)] for a one-character separator. *)
Fixpoint split_on (sep : ascii) (s : string) : list string :=
  match s with
  | EmptyString => [EmptyString]
  | String c t =>
      if Ascii.eqb c sep then EmptyString :: split_on sep t
      else match split_on sep t with
           | h :: r => String c h :: r
           | [] => [String c EmptyString]
           end
  end.

(** The components of a path: empty and ["."] components are dropped. *)
Definition parts (p : string) : list string :=
  List.filter (fun c => negb (String.eqb c "" || String.eqb c "."))
              (split_on "/" p).

(** [Path(p).name] *)
Definition name (p : string) : string := List.last (parts p) "".

(** [s.rfind(c)], [None] for -1. *)
Fixpoint rfind (c : ascii) (s : string) : option nat :=
  match s with
  | EmptyString => None
  | String a t =>
      match rfind c t with
      | Some i => Some (S i)
      | None => if Ascii.eqb a c then Some O else None
      end
  end.

(** Where the suffix of a file name starts: the last dot, unless it is the
    first or the last character. *)
Definition suffix_index (nm : string) : option nat :=
  match rfind "." nm with
  | Some i => if (0 <? i)%nat && (i <? String.length nm - 1)%nat
              then Some i else None
  | None => None
  end.

(** [Path(p).suffix] *)
Definition suffix (p : string) : string :=
  let nm := name p in
  match suffix_index nm with
  | Some i => substring i (String.length nm - i) nm
  | None => ""
  end.

(** [Path(p).stem] *)
Definition stem (p : string) : string :=
  let nm := name p in
  match suffix_index nm with
  | Some i => substring 0 i nm
  | None => nm
  end.

(** The components of [Path(p).parent]. *)
Definition parent_parts (p : string) : list string := removelast (parts p).

Fixpoint join_parts (ps : list string) : string :=
  match ps with
  | [] => ""
  | [x] => x
  | x :: r => x ++ "/" ++ join_parts r
  end.

(** [dir / rel] *)
Definition join (dir rel : string) : string := dir ++ "/" ++ rel.

(** [Path(p).suffix.lstrip('.').lower()] *)
Definition ext_lower (p : string) : string :=
  Text.lower (Text.lstrip_dot (suffix p)).

End PyPath.

(** ** models.py *)

Inductive FileSource := UPLOAD | LOCAL | OUTPUT.
Inductive TaskStatus := PENDING | PROCESSING | COMPLETED | FAILED.
Inductive MediaType := AUDIO | VIDEO.

Definition TaskStatus_eqb (a b : TaskStatus) : bool :=
  match a, b with
  | PENDING, PENDING | PROCESSING, PROCESSING
  | COMPLETED, COMPLETED | FAILED, FAILED => true
  | _, _ => false
  end.

(** [ConvertRequest].  The two codec fields are strings, as every caller in
    the repository supplies them. *)
Record ConvertRequest := {
  files : list string;
  source : FileSource;
  output_format : string;
  resolution : option string;
  video_bitrate : option string;
  video_codec : string;
  frame_rate : option string;
  audio_bitrate : option string;
  sample_rate : option string;
  audio_channels : option string;
  audio_codec : string;
  volume_adjust : option string
}.

(** One entry of [task_data["files"]] (the fields of [FileStatus]). *)
Record FileStatus := {
  filename : string;
  status : TaskStatus;
  progress : Q;
  error : option string;
  output_file : option string;
  output_size : option Z
}.

(** [BatchConvertResponse], what a status query returns. *)
Record BatchConvertResponse := {
  r_task_id : string;
  r_total_files : nat;
  r_files : list FileStatus;
  r_overall_progress : Q
}.

(** ** The shared state: task table, process registry, processes *)

Inductive exn :=
| FileNotFoundError (msg : string)
| KeyError (msg : string)
| IndexError
| ZeroDivisionError
| AttributeError
| OSError (msg : string)
| HTTPException (status_code : nat) (detail : string).

(** [str(e)] *)
Definition exn_str (e : exn) : string :=
  match e with
  | FileNotFoundError msg => msg
  | KeyError msg => msg
  | IndexError => "list index out of range"
  | ZeroDivisionError => "division by zero"
  | AttributeError => "'NoneType' object has no attribute"
  | OSError msg => msg
  | HTTPException _ detail => detail
  end.

(** An [asyncio.subprocess.Process]: the command it was started with, its
    [returncode] ([None] until the exit of the child has been collected),
    whether [terminate()] has been called on it, and whether the operating
    system makes [terminate()] raise. *)
Record Process := {
  p_cmd : list string;
  returncode : option Z;
  terminated : bool;
  terminate_raises : bool
}.

(** One value of the [tasks] dictionary.  [t_source] is [None] for a task
    without a ["source"] key. *)
Record task_data := {
  t_task_id : string;
  t_total_files : nat;
  t_files : list FileStatus;
  t_overall_progress : Q;
  t_stopped : bool;
  t_paused : bool;
  t_source : option FileSource
}.

(** The module-level state of [routes.py] and [converter.py]: [tasks],
    [_ACTIVE_PROCESSES] (task identifier to process handle), the processes
    themselves, and the answers status queries have received so far. *)
Record world := {
  tasks : gmap string task_data;
  ACTIVE_PROCESSES : gmap string nat;
  procs : list Process;
  observed : list BatchConvertResponse
}.

Definition set_tasks (f : gmap string task_data -> gmap string task_data)
    (w : world) : world :=
  {| tasks := f (tasks w); ACTIVE_PROCESSES := ACTIVE_PROCESSES w;
     procs := procs w; observed := observed w |}.

Definition set_active (f : gmap string nat -> gmap string nat) (w : world) : world :=
  {| tasks := tasks w; ACTIVE_PROCESSES := f (ACTIVE_PROCESSES w);
     procs := procs w; observed := observed w |}.

Definition set_procs (f : list Process -> list Process) (w : world) : world :=
  {| tasks := tasks w; ACTIVE_PROCESSES := ACTIVE_PROCESSES w;
     procs := f (procs w); observed := observed w |}.

Definition set_observed (f : list BatchConvertResponse -> list BatchConvertResponse)
    (w : world) : world :=
  {| tasks := tasks w; ACTIVE_PROCESSES := ACTIVE_PROCESSES w;
     procs := procs w; observed := f (observed w) |}.

Definition empty_world : world :=
  {| tasks := ∅; ACTIVE_PROCESSES := ∅; procs := []; observed := [] |}.

(** *** Computations that may raise *)

Inductive res (A : Type) :=
| Ret (a : A) (w : world)
| Exc (e : exn) (w : world).
Arguments Ret {A} a w.
Arguments Exc {A} e w.

Definition M (A : Type) : Type := world -> res A.

Definition ret {A} (a : A) : M A := fun w => Ret a w.
Definition raise {A} (e : exn) : M A := fun w => Exc e w.
Definition bind {A B} (m : M A) (k : A -> M B) : M B :=
  fun w => match m w with
           | Ret a w' => k a w'
           | Exc e w' => Exc e w'
           end.
Definition skip : M unit := ret tt.
Definition modify (f : world -> world) : M unit := fun w => Ret tt (f w).
Definition gets {A} (f : world -> A) : M A := fun w => Ret (f w) w.

(** The state a computation leaves, whether it returned or raised. *)
Definition world_of {A} (r : res A) : world :=
  match r with Ret _ w => w | Exc _ w => w end.

#[global] Instance M_ret : MRet M := @ret.
#[global] Instance M_bind : MBind M := fun A B k m => bind m k.

(** [try: m  except Exception as e: h e] *)
Definition try_except {A} (m : M A) (h : exn -> M A) : M A :=
  fun w => match m w with
           | Ret a w' => Ret a w'
           | Exc e w' => h e w'
           end.

(** [try: m  finally: fin] *)
Definition try_finally {A} (m : M A) (fin : M unit) : M A :=
  fun w => match m w with
           | Ret a w' => match fin w' with
                         | Ret _ w'' => Ret a w''
                         | Exc e w'' => Exc e w''
                         end
           | Exc e w' => match fin w' with
                         | Ret _ w'' => Exc e w''
                         | Exc e' w'' => Exc e' w''
                         end
           end.

(** *** What happens while a coroutine is suspended *)

(** Requests served by the handlers of [routes.py]. *)
Inductive request_event :=
| ReqPause (task_id : string)
| ReqStop (task_id : string)
| ReqStatus (task_id : string).

(** During an [await] of a conversion: the exit of its child is collected,
    or a request is served. *)
Inductive event :=
| Reaped
| Http (r : request_event).

(** The behaviour of one encoder process and of the rest of the system while
    the conversion that started it is suspended: whether starting it raises,
    whether terminating it raises, the lines of its diagnostic stream (already
    decoded), each with the events that precede it, the events before the end
    of the stream and before [wait()] returns, and its exit status. *)
Record proc_script := {
  ps_spawn_error : option exn;
  ps_terminate_raises : bool;
  ps_lines : list (list event * string);
  ps_eof : list event;
  ps_wait : list event;
  ps_exit : Z
}.

(** What the code asks of its surroundings: the resolved encoder (if any),
    the duration probe, the file system, the storage directories. *)
Record env := {
  ffmpeg_command : option string;
  get_file_duration : string -> Q;
  path_exists : string -> bool;
  stat_size : string -> option Z;
  UPLOAD_DIR : string;
  LOCAL_DIR : string;
  OUTPUT_DIR : string
}.

(** ** converter.py *)

Module Converter.

Import Num Text.

Definition SUPPORTED_AUDIO : list string :=
  ["mp3"; "wav"; "aac"; "flac"; "ogg"; "m4a"; "wma"].
Definition SUPPORTED_VIDEO : list string :=
  ["mp4"; "avi"; "mkv"; "mov"; "webm"; "flv"; "wmv"; "mpeg"].

(** [x in xs] for a list of strings. *)
Definition str_in (x : string) (xs : list string) : bool :=
  existsb (String.eqb x) xs.

(** [(a, b) in pairs] *)
Definition pair_in (p : string * string) (ps : list (string * string)) : bool :=
  existsb (fun q => String.eqb (fst p) (fst q) && String.eqb (snd p) (snd q)) ps.

Definition get_media_type (file_path : string) : option MediaType :=
  let ext := PyPath.ext_lower file_path in
  if str_in ext SUPPORTED_AUDIO then Some AUDIO
  else if str_in ext SUPPORTED_VIDEO then Some VIDEO
  else None.

(** *** Progress parser *)

(** The pattern [out_time_ms=(\d+)] anchored at the start of [s]; the result
    is group 1. *)
Definition match_out_time_ms (s : string) : option string :=
  match strip_prefix "out_time_ms=" s with
  | Some r => let ds := fst (span_digits r) in
              if truthy ds then Some ds else None
  | None => None
  end.

(** The pattern [time=(\d{2}):(\d{2}):(\d{2}(?:\.\d+)?)] anchored at the start
    of [s]; the result is groups 1 and 2, and group 3 as its two integer
    digits and the digits of its optional fraction. *)
Definition match_time (s : string) : option (string * string * string * string) :=
  match strip_prefix "time=" s with
  | Some r0 =>
    match take_digits 2 r0 with
    | Some (hh, r1) =>
      match strip_prefix ":" r1 with
      | Some r2 =>
        match take_digits 2 r2 with
        | Some (mm, r3) =>
          match strip_prefix ":" r3 with
          | Some r4 =>
            match take_digits 2 r4 with
            | Some (ss, r5) =>
                let frac := match strip_prefix "." r5 with
                            | Some r6 => fst (span_digits r6)
                            | None => ""
                            end in
                Some (hh, mm, ss, frac)
            | None => None
            end
          | None => None
          end
        | None => None
        end
      | None => None
      end
    | None => None
    end
  | None => None
  end.

(** [float(ss + "." + frac)], and [float(ss)] when there is no fraction. *)
Definition float_of_decimal (ss frac : string) : Q :=
  (inject_Z (int_of_digits ss)
   + inject_Z (int_of_digits frac) / inject_Z (10 ^ Z.of_nat (String.length frac)))%Q.

Definition parse_progress (stderr_line : string) (duration : Q) : option Q :=
  if Qeq_bool duration 0 || Qle_bool duration 0 then None
  else
    match re_search match_out_time_ms stderr_line with
    | Some g1 =>
        let microseconds := int_of_digits g1 in
        let current_time := (inject_Z microseconds / 1000000)%Q in
        let progress := pymin (current_time / duration * 100)%Q 100%Q in
        Some (round2 progress)
    | None =>
        match re_search match_time stderr_line with
        | Some (g1, g2, ss, frac) =>
            let hours := inject_Z (int_of_digits g1) in
            let minutes := inject_Z (int_of_digits g2) in
            let seconds := float_of_decimal ss frac in
            let current_time := (hours * 3600 + minutes * 60 + seconds)%Q in
            let progress := pymin (current_time / duration * 100)%Q 100%Q in
            Some (round2 progress)
        | None => None
        end
    end.


(** *** Compatibility policy and command builder, audio *)

Definition incompatible_combinations : list (string * string) :=
  [ ("wma", "mp3"); ("wma", "aac"); ("wma", "flac"); ("wma", "wav");
    ("m4a", "mp3"); ("m4a", "wma"); ("aac", "mp3"); ("aac", "wma");
    ("mp3", "aac"); ("mp3", "wma"); ("mp3", "flac");
    ("flac", "mp3"); ("flac", "aac"); ("flac", "wma");
    ("wav", "mp3"); ("wav", "aac"); ("wav", "wma"); ("wav", "flac") ].

(** The audio parameters of [convert_audio]. *)
Record AudioParams := {
  a_bitrate : option string;
  a_sample_rate : option string;
  a_channels : option string;
  a_volume_adjust : option string
}.

(** [bitrate or sample_rate or channels or volume_adjust], as a truth value. *)
Definition has_audio_params (p : AudioParams) : bool :=
  truthy_opt (a_bitrate p) || truthy_opt (a_sample_rate p)
  || truthy_opt (a_channels p) || truthy_opt (a_volume_adjust p).

(** The first part of [convert_audio]: the codec chosen and whether copy mode
    stays in effect, as the pair [(is_copy_mode, codec)]. *)
Definition audio_policy (input_file output_file codec : string)
    (p : AudioParams) : bool * string :=
  let output_ext := PyPath.ext_lower output_file in
  let is_copy_mode := String.eqb codec "copy" in
  (* if is_copy_mode: the table of incompatible pairs *)
  let '(is_copy_mode, codec) :=
    if is_copy_mode then
      let input_ext := PyPath.ext_lower input_file in
      if pair_in (input_ext, output_ext) incompatible_combinations then
        (false,
         if String.eqb output_ext "mp3" then "libmp3lame"
         else if str_in output_ext ["aac"; "m4a"] then "aac"
         else if String.eqb output_ext "flac" then "flac"
         else "aac")
      else (is_copy_mode, codec)
    else (is_copy_mode, codec) in
  (* if not is_copy_mode: the encoder of the output format *)
  let codec :=
    if negb is_copy_mode then
      if String.eqb output_ext "mp3" then "libmp3lame"
      else if str_in output_ext ["m4a"; "aac"] then "aac"
      else codec
    else codec in
  (* if is_copy_mode and has_audio_params *)
  if is_copy_mode && has_audio_params p then
    (false,
     if String.eqb output_ext "mp3" then "libmp3lame"
     else if str_in output_ext ["m4a"; "aac"] then "aac"
     else "aac")
  else (is_copy_mode, codec).

(** [if x: cmd.extend([flag, x])] *)
Definition opt_arg (flag : string) (x : option string) : list string :=
  match x with
  | Some v => if truthy v then [flag; v] else []
  | None => []
  end.

(** The command line of [convert_audio], given the resolved encoder. *)
Definition audio_cmd (ffmpeg input_file output_file codec : string)
    (p : AudioParams) : list string :=
  let '(is_copy_mode, codec) := audio_policy input_file output_file codec p in
  [ffmpeg; "-i"; input_file] ++ ["-c:a"; codec]
  ++ (if negb is_copy_mode then
        opt_arg "-b:a" (a_bitrate p) ++ opt_arg "-ar" (a_sample_rate p)
        ++ opt_arg "-ac" (a_channels p)
        ++ match a_volume_adjust p with
           | Some v => if truthy v then ["-af"; "volume=" ++ v] else []
           | None => []
           end
      else [])
  ++ ["-progress"; "pipe:2"] ++ ["-y"; output_file].

(** *** Compatibility policy and command builder, video *)

Definition incompatible_video_combinations : list (string * string) :=
  [ ("avi", "mp4"); ("avi", "mkv"); ("avi", "mov");
    ("mov", "avi");
    ("wmv", "mp4"); ("wmv", "mkv"); ("wmv", "mov"); ("wmv", "avi") ].

(** The video parameters of [convert_video]. *)
Record VideoParams := {
  v_resolution : option string;
  v_video_bitrate : option string;
  v_audio_codec : string;
  v_audio_bitrate : option string;
  v_frame_rate : option string
}.

Definition has_video_params (p : VideoParams) : bool :=
  truthy_opt (v_resolution p) || truthy_opt (v_video_bitrate p)
  || truthy_opt (v_frame_rate p).

(** Whether [convert_video] logs its compatibility warning: copy mode was
    requested for a pair of the table. *)
Definition video_copy_warning (input_file output_file video_codec : string) : bool :=
  String.eqb video_codec "copy"
  && pair_in (PyPath.ext_lower input_file, PyPath.ext_lower output_file)
             incompatible_video_combinations.

(** The first part of [convert_video]: [(is_copy_mode, video_codec)].  The
    table of pairs only produces a warning. *)
Definition video_policy (input_file output_file video_codec : string)
    (p : VideoParams) : bool * string :=
  let is_copy_mode := String.eqb video_codec "copy" in
  if is_copy_mode && has_video_params p then (false, "libx264")
  else (is_copy_mode, video_codec).

(** The command line of [convert_video], given the resolved encoder. *)
Definition video_cmd (ffmpeg input_file output_file video_codec : string)
    (p : VideoParams) : list string :=
  let '(is_copy_mode, video_codec) :=
    video_policy input_file output_file video_codec p in
  [ffmpeg; "-i"; input_file] ++ ["-c:v"; video_codec]
  ++ (if negb is_copy_mode then
        opt_arg "-s" (v_resolution p) ++ opt_arg "-b:v" (v_video_bitrate p)
        ++ opt_arg "-r" (v_frame_rate p)
      else [])
  ++ ["-c:a"; v_audio_codec p]
  ++ (if negb (String.eqb (v_audio_codec p) "copy")
      then opt_arg "-b:a" (v_audio_bitrate p) else [])
  ++ ["-progress"; "pipe:2"] ++ ["-y"; output_file].

(** *** Process registry *)

(** [process.returncode], for the process behind a handle. *)
Definition proc_returncode (h : nat) : M (option Z) :=
  fun w => match procs w !! h with
           | Some p => Ret (returncode p) w
           | None => Exc AttributeError w
           end.

(** [process.terminate()] *)
Definition proc_terminate (h : nat) : M unit :=
  fun w => match procs w !! h with
           | Some p =>
               if terminate_raises p then Exc (OSError "terminate") w
               else Ret tt (set_procs
                              (fun ps => <[h := {| p_cmd := p_cmd p;
                                                   returncode := returncode p;
                                                   terminated := true;
                                                   terminate_raises := terminate_raises p |}]> ps) w)
           | None => Exc AttributeError w
           end.

(** [del _ACTIVE_PROCESSES[task_id]] *)
Definition del_active (task_id : string) : M unit :=
  fun w => match ACTIVE_PROCESSES w !! task_id with
           | Some _ => Ret tt (set_active (delete task_id) w)
           | None => Exc (KeyError task_id) w
           end.

Definition terminate_task_processes (task_id : string) : M unit :=
  fun w =>
    match ACTIVE_PROCESSES w !! task_id with
    | Some process =>
        try_finally
          (try_except
             (rc ← proc_returncode process;
              match rc with
              | None => proc_terminate process
              | Some _ => skip
              end)
             (fun _ => skip))
          (del_active task_id) w
    | None => Ret tt w
    end.

(** *** Conversion runner *)

(** [if task_id and task_id in _ACTIVE_PROCESSES: del _ACTIVE_PROCESSES[task_id]] *)
Definition cleanup (task_id : option string) (w : world) : world :=
  match task_id with
  | Some t =>
      if truthy t && bool_decide (is_Some (ACTIVE_PROCESSES w !! t))
      then set_active (delete t) w else w
  | None => w
  end.

(** The child's exit is collected: [returncode] is set if it was [None]. *)
Definition reap (h : nat) (rc : Z) (w : world) : world :=
  match procs w !! h with
  | Some p =>
      match returncode p with
      | None => set_procs
                  (fun ps => <[h := {| p_cmd := p_cmd p;
                                       returncode := Some rc;
                                       terminated := terminated p;
                                       terminate_raises := terminate_raises p |}]> ps) w
      | Some _ => w
      end
  | None => w
  end.

Section Conversion.

Variable E : env.

(** How the handlers of [routes.py] serve a request. *)
Variable serve : request_event -> world -> world.

(** One event during a suspension of the conversion that runs process [h]. *)
Definition occur (h : nat) (rc : Z) (e : event) (w : world) : world :=
  match e with
  | Reaped => reap h rc w
  | Http r => serve r w
  end.

(** The events of one suspension, in order. *)
Definition deliver (h : nat) (rc : Z) (evs : list event) (w : world) : world :=
  fold_left (fun w e => occur h rc e w) evs w.

(** [asyncio.create_subprocess_exec] on the command line [cmd] *)
Definition spawn (cmd : list string) (sc : proc_script) : M nat :=
  fun w => match ps_spawn_error sc with
           | Some e => Exc e w
           | None =>
               Ret (length (procs w))
                   (set_procs (fun ps => app ps [{| p_cmd := cmd;
                                                   returncode := None;
                                                   terminated := false;
                                                   terminate_raises := ps_terminate_raises sc |}]) w)
           end.

(** The loop over [process.stderr.readline()]. *)
Fixpoint read_lines (h : nat) (rc : Z) (duration : Q)
    (progress_callback : option (Q -> M unit))
    (lines : list (list event * string)) : M unit :=
  match lines with
  | [] => skip
  | (evs, line_str) :: rest =>
      modify (deliver h rc evs);;
      match progress_callback with
      | Some cb =>
          if negb (Qle_bool duration 0) then
            match parse_progress line_str duration with
            | Some progress => cb progress
            | None => skip
            end
          else skip
      | None => skip
      end;;
      read_lines h rc duration progress_callback rest
  end.

(** After [await process.wait()]: the classification of the outcome.  The
    result is [Some true] for [True], [Some false] for [False] and [None] for
    [None]. *)
Definition classify (process : nat) (progress_callback : option (Q -> M unit))
    (task_id : option string) : M (option bool) :=
  was_terminated ← gets (fun w =>
    match task_id with
    | Some t => truthy t && negb (bool_decide (is_Some (ACTIVE_PROCESSES w !! t)))
    | None => false
    end);
  modify (cleanup task_id);;
  rc ← proc_returncode process;
  if bool_decide (rc = Some 0%Z) then
    match progress_callback with
    | Some cb => cb 100%Q
    | None => skip
    end;;
    ret (Some true)
  else if (was_terminated : bool) then ret None
  else ret (Some false).

(** From the duration probe to the outcome: the part [convert_audio] and
    [convert_video] share, inside their [try]. *)
Definition run_encoder (cmd : list string) (input_file : string)
    (progress_callback : option (Q -> M unit)) (task_id : option string)
    (sc : proc_script) : M (option bool) :=
  let duration := get_file_duration E input_file in
  process ← spawn cmd sc;
  (if truthy_opt task_id
   then modify (set_active (fun a => match task_id with
                                     | Some t => <[t := process]> a
                                     | None => a
                                     end))
   else skip);;
  read_lines process (ps_exit sc) duration progress_callback (ps_lines sc);;
  modify (deliver process (ps_exit sc) (ps_eof sc));;
  (* await process.wait() *)
  modify (deliver process (ps_exit sc) (ps_wait sc));;
  modify (reap process (ps_exit sc));;
  classify process progress_callback task_id.

(** The two [except] clauses of [convert_audio] and [convert_video]. *)
Definition guarded (task_id : option string) (body : M (option bool)) : M (option bool) :=
  fun w => match body w with
           | Ret a w' => Ret a w'
           | Exc (FileNotFoundError msg) w' =>
               Exc (FileNotFoundError msg) (cleanup task_id w')
           | Exc _ w' => Ret (Some false) (cleanup task_id w')
           end.

(** [get_ffmpeg_command()] *)
Definition get_ffmpeg_command : M string :=
  match ffmpeg_command E with
  | Some path => ret path
  | None => raise (FileNotFoundError "ffmpeg")
  end.

Definition convert_audio (input_file output_file : string) (p : AudioParams)
    (codec : string) (progress_callback : option (Q -> M unit))
    (task_id : option string) (sc : proc_script) : M (option bool) :=
  guarded task_id
    (ffmpeg ← get_ffmpeg_command;
     run_encoder (audio_cmd ffmpeg input_file output_file codec p)
                 input_file progress_callback task_id sc).

Definition convert_video (input_file output_file : string) (p : VideoParams)
    (video_codec : string) (progress_callback : option (Q -> M unit))
    (task_id : option string) (sc : proc_script) : M (option bool) :=
  guarded task_id
    (ffmpeg ← get_ffmpeg_command;
     run_encoder (video_cmd ffmpeg input_file output_file video_codec p)
                 input_file progress_callback task_id sc).

(** [convert_file], with the [options] dictionary as [routes.py] fills it
    from the request. *)
Definition convert_file (input_file output_file : string) (options : ConvertRequest)
    (progress_callback : option (Q -> M unit)) (task_id : option string)
    (sc : proc_script) : M (option bool) :=
  match get_media_type input_file with
  | Some AUDIO =>
      convert_audio input_file output_file
        {| a_bitrate := audio_bitrate options;
           a_sample_rate := sample_rate options;
           a_channels := audio_channels options;
           a_volume_adjust := volume_adjust options |}
        (audio_codec options) progress_callback task_id sc
  | Some VIDEO =>
      convert_video input_file output_file
        {| v_resolution := resolution options;
           v_video_bitrate := video_bitrate options;
           v_audio_codec := audio_codec options;
           v_audio_bitrate := audio_bitrate options;
           v_frame_rate := frame_rate options |}
        (video_codec options) progress_callback task_id sc
  | None => ret (Some false)
  end.

End Conversion.

End Converter.

(** ** routes.py *)

Module Routes.

Import Num Text Converter.

Definition with_files (fs : list FileStatus) (td : task_data) : task_data :=
  {| t_task_id := t_task_id td; t_total_files := t_total_files td;
     t_files := fs; t_overall_progress := t_overall_progress td;
     t_stopped := t_stopped td; t_paused := t_paused td;
     t_source := t_source td |}.

Definition with_total_files (n : nat) (td : task_data) : task_data :=
  {| t_task_id := t_task_id td; t_total_files := n;
     t_files := t_files td; t_overall_progress := t_overall_progress td;
     t_stopped := t_stopped td; t_paused := t_paused td;
     t_source := t_source td |}.

Definition with_overall_progress (x : Q) (td : task_data) : task_data :=
  {| t_task_id := t_task_id td; t_total_files := t_total_files td;
     t_files := t_files td; t_overall_progress := x;
     t_stopped := t_stopped td; t_paused := t_paused td;
     t_source := t_source td |}.

(** [task["stopped"] = s; task["paused"] = False] *)
Definition with_flags (s : bool) (td : task_data) : task_data :=
  {| t_task_id := t_task_id td; t_total_files := t_total_files td;
     t_files := t_files td; t_overall_progress := t_overall_progress td;
     t_stopped := s; t_paused := false;
     t_source := t_source td |}.

(** [task_data["stopped"] = False] *)
Definition clear_stopped (td : task_data) : task_data :=
  {| t_task_id := t_task_id td; t_total_files := t_total_files td;
     t_files := t_files td; t_overall_progress := t_overall_progress td;
     t_stopped := false; t_paused := t_paused td;
     t_source := t_source td |}.

(** [f["status"] = st; f["progress"] = p] *)
Definition set_status_progress (st : TaskStatus) (p : Q) (f : FileStatus) : FileStatus :=
  {| filename := filename f; status := st; progress := p; error := error f;
     output_file := output_file f; output_size := output_size f |}.

Definition set_progress (p : Q) (f : FileStatus) : FileStatus :=
  {| filename := filename f; status := status f; progress := p; error := error f;
     output_file := output_file f; output_size := output_size f |}.

(** [f["status"] = FAILED; f["error"] = msg] *)
Definition set_failed (msg : string) (f : FileStatus) : FileStatus :=
  {| filename := filename f; status := FAILED; progress := progress f;
     error := Some msg;
     output_file := output_file f; output_size := output_size f |}.

(** [f["status"] = COMPLETED; f["progress"] = 100.0; f["output_file"] = path] *)
Definition set_completed (path : string) (f : FileStatus) : FileStatus :=
  {| filename := filename f; status := COMPLETED; progress := 100; error := error f;
     output_file := Some path; output_size := output_size f |}.

Definition set_output_size (n : Z) (f : FileStatus) : FileStatus :=
  {| filename := filename f; status := status f; progress := progress f;
     error := error f; output_file := output_file f; output_size := Some n |}.

(** [sum(f["progress"] for f in files) / len(files)], rounded to two
    decimals; [None] when the list is empty (division by zero). *)
Definition mean_progress (fs : list FileStatus) : option Q :=
  match fs with
  | [] => None
  | _ => Some (round2 (qsum (map progress fs) / inject_Z (Z.of_nat (length fs))))
  end.

(** [tasks[task_id]], to update it in place. *)
Definition update_task (task_id : string) (f : task_data -> task_data) : M unit :=
  fun w => match tasks w !! task_id with
           | Some td => Ret tt (set_tasks (fun m => <[task_id := f td]> m) w)
           | None => Exc (KeyError task_id) w
           end.

(** [tasks[task_id]["files"][idx]], to update it in place. *)
Definition update_file (task_id : string) (idx : nat)
    (f : FileStatus -> FileStatus) : M unit :=
  fun w => match tasks w !! task_id with
           | Some td =>
               match t_files td !! idx with
               | Some x =>
                   Ret tt (set_tasks
                             (fun m => <[task_id := with_files (<[idx := f x]> (t_files td)) td]> m) w)
               | None => Exc IndexError w
               end
           | None => Exc (KeyError task_id) w
           end.

(** [total_progress = sum(...) / len(...);
    task["overall_progress"] = round(total_progress, 2)] *)
Definition recompute_overall (task_id : string) : M unit :=
  fun w => match tasks w !! task_id with
           | Some td =>
               match mean_progress (t_files td) with
               | Some x => Ret tt (set_tasks
                                     (fun m => <[task_id := with_overall_progress x td]> m) w)
               | None => Exc ZeroDivisionError w
               end
           | None => Exc (KeyError task_id) w
           end.

Definition not_found {A} : M A := raise (HTTPException 404 "任务不存在").

(** *** Handlers without a suspension point *)

Definition get_status (task_id : string) : M BatchConvertResponse :=
  fun w => match tasks w !! task_id with
           | Some td =>
               Ret {| r_task_id := task_id;
                      r_total_files := t_total_files td;
                      r_files := t_files td;
                      r_overall_progress := t_overall_progress td |} w
           | None => not_found w
           end.

(** The reset [pause_task] applies to each file. *)
Definition reset_processing (f : FileStatus) : FileStatus :=
  if TaskStatus_eqb (status f) PROCESSING
  then set_status_progress PENDING 0 f else f.

Definition pause_task (task_id : string) : M (string * string) :=
  fun w => match tasks w !! task_id with
           | None => not_found w
           | Some _ =>
               (terminate_task_processes task_id;;
                update_task task_id (with_flags true);;
                update_task task_id
                  (fun td => with_files (map reset_processing (t_files td)) td);;
                recompute_overall task_id;;
                ret ("paused", task_id)) w
           end.

Definition stop_task (task_id : string) : M (string * string) :=
  fun w => match tasks w !! task_id with
           | None => not_found w
           | Some _ =>
               (update_task task_id (with_flags true);;
                ret ("stopped", task_id)) w
           end.

(** The requests served while a conversion is suspended.  A handler that
    raises leaves the state it reached; a status answer is recorded. *)
Definition serve (r : request_event) (w : world) : world :=
  match r with
  | ReqPause t => world_of (pause_task t w)
  | ReqStop t => world_of (stop_task t w)
  | ReqStatus t =>
      match get_status t w with
      | Ret a w' => set_observed (fun l => app l [a]) w'
      | Exc _ w' => w'
      end
  end.

Definition new_file_status (name : string) : FileStatus :=
  {| filename := name; status := PENDING; progress := 0; error := None;
     output_file := None; output_size := None |}.

(** [convert]: the task created for a request under a fresh identifier; the
    background run of [process_batch_convert] is started separately. *)
Definition convert (request : ConvertRequest) (task_id : string) : M BatchConvertResponse :=
  let file_statuses := map new_file_status (files request) in
  let td := {| t_task_id := task_id;
               t_total_files := length (files request);
               t_files := file_statuses;
               t_overall_progress := 0;
               t_stopped := false;
               t_paused := false;
               t_source := Some (source request) |} in
  modify (set_tasks (fun m => <[task_id := td]> m));;
  ret {| r_task_id := task_id;
         r_total_files := t_total_files td;
         r_files := t_files td;
         r_overall_progress := t_overall_progress td |}.

Section Orchestrator.

Variable E : env.

Definition get_file_path (name : string) (src : FileSource) : string :=
  match src with
  | UPLOAD => PyPath.join (UPLOAD_DIR E) name
  | LOCAL => PyPath.join (LOCAL_DIR E) name
  | OUTPUT => PyPath.join (OUTPUT_DIR E) name
  end.

(** The output path of a file: the output directory, the sub-directories of
    the file name, its stem and the requested format. *)
Definition output_path_of (name fmt : string) : string :=
  let output_filename := PyPath.stem name ++ "." ++ fmt in
  match PyPath.parent_parts name with
  | [] => PyPath.join (OUTPUT_DIR E) output_filename
  | ps => PyPath.join (PyPath.join (OUTPUT_DIR E) (PyPath.join_parts ps)) output_filename
  end.

(** The closure [progress_callback] of file [idx]. *)
Definition progress_callback (task_id : string) (idx : nat) (p : Q) : M unit :=
  update_file task_id idx (set_progress p);;
  recompute_overall task_id.

(** The [try] block of the loop body for a file that is not skipped; the
    result tells whether the loop is left ([break]). *)
Definition process_one_body (task_id : string) (request : ConvertRequest)
    (idx : nat) (name : string) (sc : proc_script) : M bool :=
  update_file task_id idx (set_status_progress PROCESSING 0);;
  let input_path := get_file_path name (source request) in
  if negb (path_exists E input_path)
  then raise (FileNotFoundError ("文件不存在: " ++ name))
  else
    let output_path := output_path_of name (output_format request) in
    success ← convert_file E serve input_path output_path request
                (Some (progress_callback task_id idx)) (Some task_id) sc;
    match (success : option bool) with
    | Some true =>
        update_file task_id idx (set_completed output_path);;
        match stat_size E output_path with
        | Some n => update_file task_id idx (set_output_size n)
        | None => skip
        end;;
        ret false
    | None =>
        update_file task_id idx (set_status_progress PENDING 0);;
        ret true
    | Some false =>
        update_file task_id idx (set_failed "转换失败");;
        ret false
    end.

(** The loop body for a file that is not skipped: the [try] block and its
    [except Exception] clause. *)
Definition process_one (task_id : string) (request : ConvertRequest)
    (idx : nat) (name : string) (sc : proc_script) : M bool :=
  try_except
    (process_one_body task_id request idx name sc)
    (fun e => update_file task_id idx (set_failed (exn_str e));; ret false).

(** The [for idx, filename in enumerate(request.files)] loop, from index
    [idx]; [scripts idx] is what happens during the conversion of file
    [idx]. *)
Fixpoint batch_loop (task_id : string) (request : ConvertRequest)
    (scripts : nat -> proc_script) (idx : nat) (names : list string) : M unit :=
  match names with
  | [] => skip
  | name :: rest =>
      fun w =>
        match tasks w !! task_id with
        | None => Exc (KeyError task_id) w
        | Some td =>
            if t_stopped td then Ret tt w
            else
              match t_files td !! idx with
              | None => Exc IndexError w
              | Some f =>
                  if TaskStatus_eqb (status f) COMPLETED
                  then batch_loop task_id request scripts (S idx) rest w
                  else
                    (brk ← process_one task_id request idx name (scripts idx);
                     if (brk : bool) then skip
                     else batch_loop task_id request scripts (S idx) rest) w
              end
        end
  end.

(** The background task.  Every exception ends in the outer [except], which
    only logs. *)
Definition process_batch_convert (task_id : string) (request : ConvertRequest)
    (scripts : nat -> proc_script) (w : world) : world :=
  world_of
    (try_except
       (update_task task_id clear_stopped;;
        batch_loop task_id request scripts 0 (files request);;
        recompute_overall task_id)
       (fun _ => skip) w).

(** [[f for f in files if f["filename"] in current_filenames]] followed by a
    fresh entry for every current name the task did not have. *)
Definition resync (current_filenames : list string) (fs : list FileStatus) : list FileStatus :=
  let backend_filenames := map filename fs in
  let kept := List.filter (fun f => str_in (filename f) current_filenames) fs in
  let new_filenames :=
    List.filter (fun n => negb (str_in n backend_filenames)) current_filenames in
  app kept (map new_file_status new_filenames).

(** The output format [resume_task] infers: the extension of the first
    recorded output file, ["mp4"] when there is none. *)
Fixpoint infer_output_format (fs : list FileStatus) : string :=
  match fs with
  | [] => "mp4"
  | f :: rest =>
      if truthy_opt (output_file f)
      then match output_file f with
           | Some p => lstrip_dot (PyPath.suffix p)
           | None => "mp4"
           end
      else infer_output_format rest
  end.

(** [resume_task]: the request it hands to the background run of
    [process_batch_convert].  [current_filenames] is the ["filenames"] entry
    of the request body, if any. *)
Definition resume_task (task_id : string) (current_filenames : option (list string))
    : M ConvertRequest :=
  fun w =>
    match tasks w !! task_id with
    | None => not_found w
    | Some _ =>
        (match current_filenames with
         | Some names =>
             update_task task_id
               (fun td => let fs := resync names (t_files td) in
                          with_total_files (length fs) (with_files fs td))
         | None => skip
         end;;
         update_task task_id (with_flags false);;
         td ← gets (fun w => tasks w !! task_id);
         match (td : option task_data) with
         | None => raise (KeyError task_id)
         | Some td =>
             src ← match t_source td with
                   | Some s => ret s
                   | None =>
                       match t_files td with
                       | [] => raise IndexError
                       | first :: _ =>
                           if path_exists E (PyPath.join (UPLOAD_DIR E) (filename first))
                           then ret UPLOAD
                           else if path_exists E (PyPath.join (LOCAL_DIR E) (filename first))
                           then ret LOCAL
                           else raise (HTTPException 404 "找不到文件来源")
                       end
                   end;
             ret {| files := map filename (t_files td);
                    source := src;
                    output_format := infer_output_format (t_files td);
                    resolution := None;
                    video_bitrate := None;
                    video_codec := "libx264";
                    frame_rate := None;
                    audio_bitrate := None;
                    sample_rate := None;
                    audio_channels := None;
                    audio_codec := "aac";
                    volume_adjust := None |}
         end) w
    end.

End Orchestrator.

End Routes.

(** ** Closed forms of the handlers, used to state their effect *)

Module Effect.

Import Converter Routes.

Definition mark_terminated (p : Process) : Process :=
  {| p_cmd := p_cmd p; returncode := returncode p;
     terminated := true; terminate_raises := terminate_raises p |}.

(** The processes after [terminate_task_processes task_id]. *)
Definition terminated_procs (task_id : string) (w : world) : list Process :=
  match ACTIVE_PROCESSES w !! task_id with
  | Some h =>
      match procs w !! h with
      | Some p =>
          match returncode p with
          | None => if terminate_raises p then procs w
                    else <[h := mark_terminated p]> (procs w)
          | Some _ => procs w
          end
      | None => procs w
      end
  | None => procs w
  end.

(** The state after [terminate_task_processes task_id]. *)
Definition terminated_world (task_id : string) (w : world) : world :=
  {| tasks := tasks w;
     ACTIVE_PROCESSES := delete task_id (ACTIVE_PROCESSES w);
     procs := terminated_procs task_id w;
     observed := observed w |}.

(** A task record after [pause_task]. *)
Definition paused_task (td : task_data) : task_data :=
  let fs := map reset_processing (t_files td) in
  let td1 := with_files fs (with_flags true td) in
  match mean_progress fs with
  | Some x => with_overall_progress x td1
  | None => td1
  end.

(** The answer of a status query for a task record. *)
Definition status_of (task_id : string) (td : task_data) : BatchConvertResponse :=
  {| r_task_id := task_id; r_total_files := t_total_files td;
     r_files := t_files td; r_overall_progress := t_overall_progress td |}.









(** Every progress value of a file list lies between 0 and 100. *)
Definition files_in_percent (fs : list FileStatus) : Prop :=
  Forall (fun f => Num.in_percent (progress f)) fs.

(** Every progress value of every task, and of every answer a status query
    has received, lies between 0 and 100. *)
Definition world_in_percent (w : world) : Prop :=
  (forall t td, tasks w !! t = Some td -> files_in_percent (t_files td))
  /\ Forall (fun r => files_in_percent (r_files r)) (observed w).

(** Task [t] exists and has [n] files. *)
Definition has_files (t : string) (n : nat) (w : world) : Prop :=
  exists td, tasks w !! t = Some td /\ length (t_files td) = n.

(** A computation keeps a property of the state, however it ends. *)
Definition keeps {A} (I : world -> Prop) (m : M A) : Prop :=
  forall w, I w -> I (world_of (m w)).



End Effect.

(** ** Concrete inputs used by the examples *)

Module Examples.

Import Converter.

Definition no_audio_params : AudioParams :=
  {| a_bitrate := None; a_sample_rate := None;
     a_channels := None; a_volume_adjust := None |}.

Definition bitrate_192k : AudioParams :=
  {| a_bitrate := Some "192k"; a_sample_rate := None;
     a_channels := None; a_volume_adjust := None |}.

Definition frame_rate_30 : VideoParams :=
  {| v_resolution := None; v_video_bitrate := None; v_audio_codec := "aac";
     v_audio_bitrate := None; v_frame_rate := Some "30" |}.

Definition file_in (name : string) (st : TaskStatus) (p : Q)
    (out : option string) : FileStatus :=
  {| filename := name; status := st; progress := p; error := None;
     output_file := out; output_size := None |}.

Definition running_process : Process :=
  {| p_cmd := ["ffmpeg"; "-i"; "uploads/b.wav"; "-c:a"; "libmp3lame";
               "-progress"; "pipe:2"; "-y"; "outputs/b.mp3"];
     returncode := None; terminated := false; terminate_raises := false |}.

(** A batch of three files: the first completed, the second being converted
    (half way), the third not started. *)
Definition three_files : task_data :=
  {| t_task_id := "t"; t_total_files := 3;
     t_files := [ file_in "a.wav" COMPLETED 100 (Some "outputs/a.mp3");
                  file_in "b.wav" PROCESSING 50 None;
                  file_in "c.wav" PENDING 0 None ];
     t_overall_progress := 50;
     t_stopped := false; t_paused := false; t_source := Some UPLOAD |}.

Definition world_three : world :=
  {| tasks := {[ "t" := three_files ]};
     ACTIVE_PROCESSES := {[ "t" := 0%nat ]};
     procs := [running_process];
     observed := [] |}.

(** The same batch with no process registered yet. *)
Definition world_idle : world :=
  {| tasks := {[ "t" := three_files ]};
     ACTIVE_PROCESSES := ∅; procs := []; observed := [] |}.

Definition E0 : env :=
  {| ffmpeg_command := Some "ffmpeg";
     get_file_duration := fun _ => 10%Q;
     path_exists := fun _ => true;
     stat_size := fun _ => Some 1234%Z;
     UPLOAD_DIR := "uploads"; LOCAL_DIR := "localfiles";
     OUTPUT_DIR := "outputs" |}.

(** A process that reports half of the duration, is paused, and exits with
    the given status. *)
Definition paused_script (rc : Z) : proc_script :=
  {| ps_spawn_error := None; ps_terminate_raises := false;
     ps_lines := [([], "out_time_ms=5000000"); ([Http (ReqPause "t")], "progress=continue")];
     ps_eof := []; ps_wait := []; ps_exit := rc |}.

(** A request for two audio files. *)
Definition two_wavs : ConvertRequest :=
  {| files := ["a.wav"; "b.wav"]; source := UPLOAD; output_format := "mp3";
     resolution := None; video_bitrate := None; video_codec := "libx264";
     frame_rate := None; audio_bitrate := None; sample_rate := None;
     audio_channels := None; audio_codec := "aac"; volume_adjust := None |}.

(** The record of the task created for [two_wavs]. *)
Definition submitted_task : task_data :=
  {| t_task_id := "t"; t_total_files := 2;
     t_files := [ file_in "a.wav" PENDING 0 None; file_in "b.wav" PENDING 0 None ];
     t_overall_progress := 0;
     t_stopped := false; t_paused := false; t_source := Some UPLOAD |}.

(** The state after the request has been submitted as task ["t"]. *)
Definition world_submitted : world :=
  world_of (Routes.convert two_wavs "t" empty_world).

(** A process that prints an error and exits with status 1. *)
Definition failing_script : proc_script :=
  {| ps_spawn_error := None; ps_terminate_raises := false;
     ps_lines := [([], "a.wav: Invalid data found when processing input")];
     ps_eof := []; ps_wait := []; ps_exit := 1 |}.


(** A process that reports half of the duration and completes. *)
Definition ok_script : proc_script :=
  {| ps_spawn_error := None; ps_terminate_raises := false;
     ps_lines := [([], "out_time_ms=5000000")];
     ps_eof := []; ps_wait := []; ps_exit := 0 |}.

(** A process during whose start the status of the task is queried. *)
Definition observed_script : proc_script :=
  {| ps_spawn_error := None; ps_terminate_raises := false;
     ps_lines := [([Http (ReqStatus "t")], "frame=1 fps=0.0")];
     ps_eof := []; ps_wait := []; ps_exit := 0 |}.

(** First run: the first file completes, the second is paused. *)
Definition first_run : world :=
  Routes.process_batch_convert E0 "t" two_wavs
    (fun i => match i with O => ok_script | _ => paused_script 255 end)
    world_submitted.

(** The record of task ["t"] after the first run. *)
Definition first_run_task : task_data :=
  Eval vm_compute in default submitted_task (tasks first_run !! "t").

(** A run that is paused during its first file. *)
Definition paused_run : world :=
  Routes.process_batch_convert E0 "t" two_wavs (fun _ => paused_script 255)
    world_submitted.



End Examples.

(** ** converter.py: format checks and binary discovery *)

Module Formats.

Import Text Converter.

(** [is_supported_format] *)
Definition is_supported_format (file_path : string) : bool :=
  match get_media_type file_path with
  | Some _ => true
  | None => false
  end.

(** [validate_format_conversion]: the pair [(ok, message)]. *)
Definition validate_format_conversion (source_filename target_format : string)
    : bool * string :=
  let source_type := get_media_type source_filename in
  let target_format_lower := lower target_format in
  let target_type :=
    if str_in target_format_lower SUPPORTED_AUDIO then Some AUDIO
    else if str_in target_format_lower SUPPORTED_VIDEO then Some VIDEO
    else None in
  match target_type with
  | None => (false, "不支持的目标格式: " ++ target_format)
  | Some tgt =>
      match source_type with
      | None => (false, "不支持的源文件格式: " ++ source_filename)
      | Some st =>
          match st, tgt with
          | AUDIO, VIDEO =>
              (false, "不能将音频文件(" ++ source_filename ++ ")转换为视频格式("
                      ++ target_format ++ ")")
          | _, _ => (true, "")
          end
      end
  end.

End Formats.

Module Binary.

Import Text.

(** What binary discovery asks of the operating system: whether it is
    Windows, the environment variables, [shutil.which], the default
    directories, home-directory expansion and the file system.  The
    conversion runner only sees the outcome of this search, which its
    environment records as [ffmpeg_command]. *)
Record binenv := {
  os_nt : bool;
  getenv : string -> option string;
  which : string -> option string;
  DEFAULT_BIN_DIRS : list string;
  expanduser : string -> string;
  is_dir : string -> bool;
  exists_ : string -> bool
}.

(** [s.endswith(suffix)] *)
Definition ends_with (s suffix : string) : bool :=
  let n := String.length s in
  let k := String.length suffix in
  (k <=? n)%nat && String.eqb (substring (n - k) k s) suffix.

Section Discovery.

Variable B : binenv.

Definition _exe_name (base : string) : string :=
  if os_nt B && negb (ends_with (lower base) ".exe")
  then base ++ ".exe" else base.

(** The list [candidates] of [_resolve_binary]. *)
Definition candidates (env_var executable_name : string) : list string :=
  let exe_name := _exe_name executable_name in
  app (match getenv B env_var with
       | Some v => if truthy v then [v] else []
       | None => []
       end)
      (app (match which B executable_name with
            | Some p => if truthy p then [p] else []
            | None => []
            end)
           (map (fun d => PyPath.join d exe_name) (DEFAULT_BIN_DIRS B))).

(** The path a candidate stands for: a directory stands for the executable
    inside it. *)
Definition located (exe_name candidate : string) : string :=
  let path := expanduser B candidate in
  if is_dir B path then PyPath.join path exe_name else path.

(** The [for candidate in candidates] loop: the first candidate whose path
    exists. *)
Fixpoint first_existing (exe_name : string) (cands : list string) : option string :=
  match cands with
  | [] => None
  | candidate :: rest =>
      let path := located exe_name candidate in
      if exists_ B path then Some path else first_existing exe_name rest
  end.

(** [_resolve_binary], on the cache [_BINARY_CACHE]: the resolved path or the
    exception, and the cache afterwards. *)
Definition _resolve_binary (env_var executable_name : string)
    (cache : gmap string string) : (string + exn) * gmap string string :=
  let cache_key := env_var ++ ":" ++ executable_name in
  match cache !! cache_key with
  | Some resolved => (inl resolved, cache)
  | None =>
      match first_existing (_exe_name executable_name)
                           (candidates env_var executable_name) with
      | Some resolved => (inl resolved, <[cache_key := resolved]> cache)
      | None =>
          (inr (FileNotFoundError
                  ("未找到 " ++ executable_name
                   ++ " 可执行文件，请将其加入 PATH 或设置环境变量 " ++ env_var)),
           cache)
      end
  end.

Definition get_ffmpeg_command := _resolve_binary "FFMPEG_PATH" "ffmpeg".
Definition get_ffprobe_command := _resolve_binary "FFPROBE_PATH" "ffprobe".

End Discovery.

End Binary.

(** ** routes.py: name conflicts of uploads *)

Module Conflict.

Import Text.


(** [parent / f"{stem}{counter}{suffix}"] *)
Definition candidate (path : string) (counter : nat) : string :=
  let nm := PyPath.stem path ++ pretty counter ++ PyPath.suffix path in
  match PyPath.parent_parts path with
  | [] => nm
  | ps => PyPath.join (PyPath.join_parts ps) nm
  end.



End Conflict.

(** ** Vocabulary of the further properties *)

Module More.

Import Text Converter Routes Effect.


(** The codec the audio policy maps a target extension to, when it does not
    keep the caller's. *)
Definition table_codec (output_ext : string) : string :=
  if String.eqb output_ext "mp3" then "libmp3lame"
  else if String.eqb output_ext "flac" then "flac"
  else "aac".

(** A request without files, the record of the task created for it, and the
    state after it has been submitted as task ["t"]. *)
Definition no_files : ConvertRequest :=
  {| files := []; source := UPLOAD; output_format := "mp3";
     resolution := None; video_bitrate := None; video_codec := "libx264";
     frame_rate := None; audio_bitrate := None; sample_rate := None;
     audio_channels := None; audio_codec := "aac"; volume_adjust := None |}.

Definition no_files_task : task_data :=
  {| t_task_id := "t"; t_total_files := 0; t_files := [];
     t_overall_progress := 0;
     t_stopped := false; t_paused := false; t_source := Some UPLOAD |}.

Definition world_no_files : world :=
  world_of (Routes.convert no_files "t" empty_world).

(** Whenever the computation returns, task [t] has no registry entry. *)
Definition returns_unregistered {A} (t : string) (m : M A) : Prop :=
  forall w a w', m w = Ret a w' -> ACTIVE_PROCESSES w' !! t = None.

(** Every progress value and every aggregate progress, of every task and of
    every answer a status query has received, lies between 0 and 100. *)
Definition aggregates_in_percent (w : world) : Prop :=
  world_in_percent w
  /\ (forall t td, tasks w !! t = Some td ->
                   Num.in_percent (t_overall_progress td))
  /\ Forall (fun r => Num.in_percent (r_overall_progress r)) (observed w).

(** [c in s] *)
Fixpoint has_char (c : ascii) (s : string) : bool :=
  match s with
  | EmptyString => false
  | String a t => Ascii.eqb a c || has_char c t
  end.

(** The record of a file that failed before any progress was reported. *)
Definition file_failed (msg : string) (f0 : FileStatus) : FileStatus :=
  {| filename := filename f0; status := FAILED; progress := 0;
     error := Some msg;
     output_file := output_file f0; output_size := output_size f0 |}.

(** The state in which file [idx] of task [t], whose record was [td] and
    whose file record was [f0], has failed with [msg], all else being as in
    [w]. *)
Definition failed_world (t : string) (idx : nat) (msg : string)
    (f0 : FileStatus) (td : task_data) (w : world) : world :=
  {| tasks := <[t := with_files (<[idx := file_failed msg f0]> (t_files td)) td]>
                (tasks w);
     ACTIVE_PROCESSES := ACTIVE_PROCESSES w;
     procs := procs w;
     observed := observed w |}.

(** What the driving loop records for an exception of the conversion: the
    text of a [FileNotFoundError], the fixed message for any other. *)
Definition recorded_error (e : exn) : string :=
  match e with
  | FileNotFoundError msg => msg
  | _ => "转换失败"
  end.


Definition E_without_tool : env :=
  {| ffmpeg_command := None;
     get_file_duration := fun _ => 0%Q;
     path_exists := fun _ => true;
     stat_size := fun _ => None;
     UPLOAD_DIR := "uploads"; LOCAL_DIR := "localfiles";
     OUTPUT_DIR := "outputs" |}.

Definition spawn_fails (e : exn) : proc_script :=
  {| ps_spawn_error := Some e; ps_terminate_raises := false;
     ps_lines := []; ps_eof := []; ps_wait := []; ps_exit := 0 |}.


(** A system where the encoder is only found in the second default
    directory, and one where it is nowhere. *)
Definition B_local : Binary.binenv :=
  {| Binary.os_nt := false;
     Binary.getenv := fun _ => None;
     Binary.which := fun _ => None;
     Binary.DEFAULT_BIN_DIRS := ["/usr/bin"; "/usr/local/bin"];
     Binary.expanduser := fun p => p;
     Binary.is_dir := fun _ => false;
     Binary.exists_ := fun p => String.eqb p "/usr/local/bin/ffmpeg" |}.

Definition B_bare : Binary.binenv :=
  {| Binary.os_nt := false;
     Binary.getenv := fun _ => None;
     Binary.which := fun _ => None;
     Binary.DEFAULT_BIN_DIRS := ["/usr/bin"; "/usr/local/bin"];
     Binary.expanduser := fun p => p;
     Binary.is_dir := fun _ => false;
     Binary.exists_ := fun _ => false |}.



End More.
(** * Properties *)

Import Num Text Converter Routes Effect Examples.

Local Open Scope list_scope.

(** ** Process registry *)

Lemma lookup_active_set_procs f w t :
  ACTIVE_PROCESSES (set_procs f w) !! t = ACTIVE_PROCESSES w !! t.
Proof. reflexivity. Qed.

(** ** Compatibility policy and command builder *)

(** C3: a copy-mode audio request from a [wma] source to an [mp3] target is
    re-encoded with [libmp3lame], whatever the audio parameters: with none,
    the command selects [libmp3lame] and carries no parameter; with a
    bitrate, the command selects [libmp3lame] and carries the bitrate. *)
Theorem audio_copy_wma_mp3_reencodes
    (ffmpeg input_file output_file : string) (p : AudioParams) :
  PyPath.ext_lower input_file = "wma" →
  PyPath.ext_lower output_file = "mp3" →
  audio_policy input_file output_file "copy" p = (false, "libmp3lame")
  ∧ audio_cmd ffmpeg input_file output_file "copy" no_audio_params
    = [ffmpeg; "-i"; input_file; "-c:a"; "libmp3lame";
       "-progress"; "pipe:2"; "-y"; output_file]
  ∧ ∀ b, a_bitrate p = Some b → truthy b = true →
      ∃ rest, audio_cmd ffmpeg input_file output_file "copy" p
              = [ffmpeg; "-i"; input_file; "-c:a"; "libmp3lame"; "-b:a"; b] ++ rest.
Proof.
  intros Hin Hout.
  assert (Hpol : ∀ q, audio_policy input_file output_file "copy" q
                      = (false, "libmp3lame")).
  { intros q. unfold audio_policy. rewrite Hin, Hout. reflexivity. }
  split; [apply Hpol|]. split.
  - unfold audio_cmd. rewrite Hpol. reflexivity.
  - intros b Hb Hnonempty. unfold audio_cmd. rewrite Hpol. simpl.
    rewrite Hb. simpl. rewrite Hnonempty. simpl. eauto.
Qed.

Lemma audio_copy_wma_mp3_reencodes_witness :
  audio_policy "uploads/song.wma" "outputs/song.mp3" "copy" bitrate_192k
  = (false, "libmp3lame")
  ∧ audio_cmd "ffmpeg" "uploads/song.wma" "outputs/song.mp3" "copy" no_audio_params
    = ["ffmpeg"; "-i"; "uploads/song.wma"; "-c:a"; "libmp3lame";
       "-progress"; "pipe:2"; "-y"; "outputs/song.mp3"]
  ∧ ∀ b, a_bitrate bitrate_192k = Some b → truthy b = true →
      ∃ rest, audio_cmd "ffmpeg" "uploads/song.wma" "outputs/song.mp3" "copy"
                bitrate_192k
              = ["ffmpeg"; "-i"; "uploads/song.wma"; "-c:a"; "libmp3lame";
                 "-b:a"; b] ++ rest.
Proof.
  apply (audio_copy_wma_mp3_reencodes "ffmpeg" "uploads/song.wma"
           "outputs/song.mp3" bitrate_192k); reflexivity.
Defined.

(** C4: a copy-mode video request without resolution, video bitrate or frame
    rate stays in copy mode for the pair avi to mp4 (the pair only raises the
    warning); with a frame rate, copy mode is replaced by [libx264] and the
    command carries the frame rate. *)
Theorem video_copy_avi_mp4_advisory
    (ffmpeg input_file output_file : string) (p : VideoParams) :
  PyPath.ext_lower input_file = "avi" →
  PyPath.ext_lower output_file = "mp4" →
  video_copy_warning input_file output_file "copy" = true
  ∧ (has_video_params p = false →
       video_policy input_file output_file "copy" p = (true, "copy")
       ∧ ∃ rest, video_cmd ffmpeg input_file output_file "copy" p
                 = [ffmpeg; "-i"; input_file; "-c:v"; "copy";
                    "-c:a"; v_audio_codec p] ++ rest)
  ∧ (∀ r, v_frame_rate p = Some r → truthy r = true →
       video_policy input_file output_file "copy" p = (false, "libx264")
       ∧ ∃ rest, video_cmd ffmpeg input_file output_file "copy" p
                 = [ffmpeg; "-i"; input_file; "-c:v"; "libx264"]
                   ++ opt_arg "-s" (v_resolution p)
                   ++ opt_arg "-b:v" (v_video_bitrate p)
                   ++ ["-r"; r] ++ rest).
Proof.
  intros Hin Hout. split; [|split].
  - unfold video_copy_warning. rewrite Hin, Hout. reflexivity.
  - intros Hno.
    assert (Hpol : video_policy input_file output_file "copy" p = (true, "copy")).
    { unfold video_policy. rewrite Hno. reflexivity. }
    split; [exact Hpol|].
    unfold video_cmd. rewrite Hpol. simpl. eauto.
  - intros r Hr Hnonempty.
    assert (Hhas : has_video_params p = true).
    { unfold has_video_params. rewrite Hr. simpl. rewrite Hnonempty.
      by rewrite !orb_true_r. }
    assert (Hpol : video_policy input_file output_file "copy" p = (false, "libx264")).
    { unfold video_policy. rewrite Hhas. reflexivity. }
    split; [exact Hpol|].
    unfold video_cmd. rewrite Hpol.
    cbn [negb]. rewrite Hr. unfold opt_arg at 3. rewrite Hnonempty.
    eexists. rewrite <- !app_assoc. reflexivity.
Qed.

Lemma video_copy_avi_mp4_advisory_witness :
  video_policy "uploads/clip.avi" "outputs/clip.mp4" "copy" frame_rate_30
  = (false, "libx264")
  ∧ ∃ rest, video_cmd "ffmpeg" "uploads/clip.avi" "outputs/clip.mp4" "copy"
              frame_rate_30
            = ["ffmpeg"; "-i"; "uploads/clip.avi"; "-c:v"; "libx264"]
              ++ opt_arg "-s" (v_resolution frame_rate_30)
              ++ opt_arg "-b:v" (v_video_bitrate frame_rate_30)
              ++ ["-r"; "30"] ++ rest.
Proof.
  apply (video_copy_avi_mp4_advisory "ffmpeg" "uploads/clip.avi"
           "outputs/clip.mp4" frame_rate_30); reflexivity.
Defined.

(** ** Rounding *)

Section Rounding.

Local Open Scope Q_scope.



Lemma round_half_even_bounds (y : Q) (n : Z) :
  0 <= y → y <= inject_Z n → (0 ≤ round_half_even y ≤ n)%Z.
Proof.
  intros H0 Hn. unfold round_half_even.
  pose proof (Qfloor_le y) as Hfl. pose proof (Qlt_floor y) as Hfu.
  assert (Hf0 : (0 ≤ Qfloor y)%Z).
  { change 0%Z with (Qfloor 0). by apply Qfloor_resp_le. }
  assert (Hfn : (Qfloor y ≤ n)%Z).
  { rewrite <- (Qfloor_Z n). by apply Qfloor_resp_le. }
  assert (Hup : y - inject_Z (Qfloor y) > 0 → (Qfloor y + 1 ≤ n)%Z).
  { intros Hfrac. destruct (Z.eq_dec (Qfloor y) n) as [Heq|]; [|lia].
    rewrite Heq in Hfrac. lra. }
  destruct (Qcompare_spec (y - inject_Z (Qfloor y)) (1 # 2)) as [He|Hl|Hg].
  - destruct (Z.even (Qfloor y)); [lia|].
    split; [lia|]. apply Hup. rewrite He. reflexivity.
  - lia.
  - split; [lia|]. apply Hup. lra.
Qed.

Lemma round2_in_percent (x : Q) : in_percent x → in_percent (round2 x).
Proof.
  intros [H0 H100]. unfold in_percent, round2.
  destruct (round_half_even_bounds (x * 100) 10000) as [Hl Hu].
  { lra. } { change (inject_Z 10000) with 10000%Q. lra. }
  rewrite Qred_correct.
  rewrite Zle_Qle in Hl, Hu.
  change (inject_Z 0) with 0%Q in Hl. change (inject_Z 10000) with 10000%Q in Hu.
  set (r := inject_Z (round_half_even (x * 100))) in *. clearbody r.
  unfold Qdiv. change (/ 100) with (1 # 100).
  split; lra.
Qed.

Lemma round2_decimal (x : Q) : ∃ k, round2 x == inject_Z k / 100.
Proof. eexists. unfold round2. apply Qred_correct. Qed.

Lemma pymin_spec (a b : Q) : pymin a b == Qmin a b.
Proof.
  unfold pymin. destruct (Qle_bool a b) eqn:H.
  - apply Qle_bool_iff in H. symmetry. by apply Q.min_l.
  - assert (b <= a).
    { destruct (Qlt_le_dec b a) as [Hlt|Hle]; [by apply Qlt_le_weak|].
      apply Qle_bool_iff in Hle. congruence. }
    symmetry. by apply Q.min_r.
Qed.

End Rounding.

(** ** Progress parser *)

Section Parser.

Local Open Scope string_scope.








Lemma int_of_digits_from_nonneg (ds : string) (acc : Z) :
  all_digits ds = true → (0 ≤ acc)%Z → (0 ≤ int_of_digits_from acc ds)%Z.
Proof.
  revert acc. induction ds as [|c ds IH]; intros acc Hds Hacc; [done|].
  cbn [all_digits] in Hds. cbn [int_of_digits_from].
  apply andb_prop in Hds as [Hc Hds]. apply IH; [done|].
  unfold is_digit in Hc. unfold digit_val.
  apply andb_prop in Hc as [Hlo _]. apply N.leb_le in Hlo. lia.
Qed.

End Parser.

Section ParserNumbers.

Local Open Scope Q_scope.




End ParserNumbers.

Section RegistryProps.

Lemma terminate_task_processes_eq (task_id : string) (w : world) :
  terminate_task_processes task_id w = Ret tt (terminated_world task_id w).
Proof.
  unfold terminate_task_processes, terminated_world, terminated_procs.
  destruct (ACTIVE_PROCESSES w !! task_id) as [h|] eqn:Hreg.
  - unfold try_finally, try_except, mbind, M_bind, bind, proc_returncode,
      proc_terminate, skip, ret, del_active.
    destruct (procs w !! h) as [p|] eqn:Hp; simpl.
    + destruct (returncode p) as [rc|]; simpl.
      * by rewrite Hreg.
      * rewrite Hp. unfold mark_terminated.
        destruct (terminate_raises p) eqn:Hr; simpl; rewrite Hreg; reflexivity.
    + by rewrite Hreg.
  - rewrite delete_id by done. by destruct w.
Qed.

Lemma terminated_world_absent (task_id : string) (w : world) :
  ACTIVE_PROCESSES w !! task_id = None → terminated_world task_id w = w.
Proof.
  intros H. unfold terminated_world, terminated_procs. rewrite H.
  rewrite delete_id by done. by destruct w.
Qed.

(** C10: [terminate_task_processes] always returns normally.  For a task
    that is not registered it leaves the whole state as it is; for a
    registered task the entry is gone afterwards, whether the process was
    still running, had already exited, or made [terminate()] raise.  No other
    entry and no task record is touched. *)
Theorem terminate_task_processes_total (task_id : string) (w : world) :
  ∃ w', terminate_task_processes task_id w = Ret tt w'
        ∧ (ACTIVE_PROCESSES w !! task_id = None → w' = w)
        ∧ ACTIVE_PROCESSES w' !! task_id = None
        ∧ (∀ t, t ≠ task_id → ACTIVE_PROCESSES w' !! t = ACTIVE_PROCESSES w !! t)
        ∧ tasks w' = tasks w.
Proof.
  exists (terminated_world task_id w).
  split; [apply terminate_task_processes_eq|].
  split; [apply terminated_world_absent|].
  split; [apply lookup_delete_eq|].
  split; [|done].
  intros t Ht. apply lookup_delete_ne. congruence.
Qed.

Lemma update_task_eq (task_id : string) (f : task_data → task_data)
    (w : world) (td : task_data) :
  tasks w !! task_id = Some td →
  update_task task_id f w = Ret tt (set_tasks (fun m => <[task_id := f td]> m) w).
Proof. intros H. unfold update_task. by rewrite H. Qed.

Lemma set_tasks_set_tasks f g w :
  set_tasks f (set_tasks g w) = set_tasks (fun m => f (g m)) w.
Proof. reflexivity. Qed.

(** [pause_task] on an existing task: the state it leaves, and whether it
    returns or raises (an empty file list makes the mean raise). *)
Lemma pause_task_eq (task_id : string) (w : world) (td : task_data) :
  tasks w !! task_id = Some td →
  pause_task task_id w
  = let w' := set_tasks (fun m => <[task_id := paused_task td]> m)
                        (terminated_world task_id w) in
    match t_files td with
    | [] => Exc ZeroDivisionError w'
    | _ => Ret ("paused", task_id) w'
    end.
Proof.
  intros Htd. unfold pause_task. rewrite Htd.
  unfold mbind, M_bind, bind. rewrite terminate_task_processes_eq.
  rewrite (update_task_eq _ _ _ td) by done.
  rewrite (update_task_eq _ _ _ (with_flags true td)) by apply lookup_insert_eq.
  unfold recompute_overall. cbn [tasks set_tasks]. rewrite lookup_insert_eq.
  unfold paused_task. cbn [t_files with_files].
  unfold set_tasks, ret. cbn. rewrite !insert_insert_eq.
  destruct (t_files td) as [|f fs] eqn:Hfs; cbn; rewrite ?insert_insert_eq;
    reflexivity.
Qed.

Lemma serve_pause_eq (task_id : string) (w : world) :
  serve (ReqPause task_id) w
  = match tasks w !! task_id with
    | Some td => set_tasks (fun m => <[task_id := paused_task td]> m)
                           (terminated_world task_id w)
    | None => w
    end.
Proof.
  cbn [serve]. destruct (tasks w !! task_id) as [td|] eqn:Htd.
  - rewrite (pause_task_eq _ _ td) by done. by destruct (t_files td).
  - unfold pause_task. by rewrite Htd.
Qed.

Lemma serve_stop_eq (task_id : string) (w : world) :
  serve (ReqStop task_id) w
  = match tasks w !! task_id with
    | Some td => set_tasks (fun m => <[task_id := with_flags true td]> m) w
    | None => w
    end.
Proof.
  cbn [serve]. unfold stop_task. destruct (tasks w !! task_id) as [td|] eqn:Htd.
  - unfold mbind, M_bind, bind. by rewrite (update_task_eq _ _ _ td).
  - done.
Qed.

Lemma serve_status_eq (task_id : string) (w : world) :
  serve (ReqStatus task_id) w
  = match tasks w !! task_id with
    | Some td => set_observed (fun l => l ++ [status_of task_id td]) w
    | None => w
    end.
Proof.
  cbn [serve]. unfold get_status. by destruct (tasks w !! task_id).
Qed.

End RegistryProps.

(** ** Pause *)

Section PauseProps.

Lemma reset_processing_length (fs : list FileStatus) :
  length (map reset_processing fs) = length fs.
Proof. apply length_map. Qed.

Lemma mean_progress_nonempty (fs : list FileStatus) :
  fs ≠ [] →
  mean_progress fs
  = Some (round2 (qsum (map progress fs) / inject_Z (Z.of_nat (length fs)))).
Proof. by destruct fs. Qed.




End PauseProps.

(** ** The conversion runner under its events *)

Section ParserRange.

Local Open Scope Q_scope.

Lemma span_digits_all_digits (s : string) : all_digits (fst (span_digits s)) = true.
Proof.
  induction s as [|c s IH]; [done|].
  cbn [span_digits]. destruct (is_digit c) eqn:Hc; [|done].
  destruct (span_digits s) as [ds r]. cbn [fst all_digits] in *.
  by rewrite Hc, IH.
Qed.

Lemma take_digits_all_digits (n : nat) (s ds r : string) :
  take_digits n s = Some (ds, r) → all_digits ds = true.
Proof.
  revert s ds r. induction n as [|n IH]; intros s ds r H.
  - cbn in H. by injection H as <- <-.
  - cbn [take_digits] in H. destruct s as [|c s]; [done|].
    destruct (is_digit c) eqn:Hc; [|done].
    destruct (take_digits n s) as [[ds' r']|] eqn:Ht; [|done].
    injection H as <- <-. cbn [all_digits]. rewrite Hc. by eapply IH.
Qed.

Lemma int_of_digits_nonneg (ds : string) :
  all_digits ds = true → 0 <= inject_Z (int_of_digits ds).
Proof.
  intros H. change 0 with (inject_Z 0). rewrite <- Zle_Qle.
  by apply int_of_digits_from_nonneg.
Qed.

Lemma clamp_in_percent (x d : Q) :
  0 <= x → 0 < d → in_percent (round2 (pymin (x / d * 100) 100)).
Proof.
  intros Hx Hd. apply round2_in_percent. unfold in_percent.
  rewrite pymin_spec.
  assert (0 <= x / d) by (apply Qle_shift_div_l; [done|lra]).
  split; [apply Q.min_glb; lra | apply Q.le_min_r].
Qed.

Lemma match_out_time_ms_digits (s g : string) :
  match_out_time_ms s = Some g → all_digits g = true.
Proof.
  unfold match_out_time_ms. destruct (strip_prefix _ s) as [r|]; [|done].
  pose proof (span_digits_all_digits r) as Hd.
  destruct (truthy (span_digits r).1); [|done]. by intros [= <-].
Qed.

Lemma match_time_digits (s hh mm ss frac : string) :
  match_time s = Some (hh, mm, ss, frac) →
  all_digits hh = true ∧ all_digits mm = true
  ∧ all_digits ss = true ∧ all_digits frac = true.
Proof.
  unfold match_time.
  destruct (strip_prefix "time=" s) as [r0|]; [|done].
  destruct (take_digits 2 r0) as [[h1 r1]|] eqn:H1; [|done].
  destruct (strip_prefix ":" r1) as [r2|]; [|done].
  destruct (take_digits 2 r2) as [[m1 r3]|] eqn:H2; [|done].
  destruct (strip_prefix ":" r3) as [r4|]; [|done].
  destruct (take_digits 2 r4) as [[s1 r5]|] eqn:H3; [|done].
  assert (Hfr : all_digits match strip_prefix "." r5 with
                          | Some r6 => (span_digits r6).1
                          | None => ""%string
                          end = true).
  { destruct (strip_prefix "." r5); [apply span_digits_all_digits|done]. }
  intros H. injection H as <- <- <- <-.
  repeat split; try (by eapply take_digits_all_digits). exact Hfr.
Qed.

Lemma re_search_Some {A} (m : string → option A) (s : string) (x : A) :
  re_search m s = Some x → ∃ s', m s' = Some x.
Proof.
  induction s as [|c s IH]; cbn [re_search].
  - destruct (m "") eqn:H; [|done]. intros [= <-]. eauto.
  - destruct (m (String c s)) eqn:H; [intros [= <-]; eauto|]. apply IH.
Qed.

Lemma duration_guard (d : Q) :
  (Qeq_bool d 0 || Qle_bool d 0)%bool = false → 0 < d.
Proof.
  intros H. apply orb_false_elim in H as [_ H].
  destruct (Qlt_le_dec 0 d) as [|Hle]; [done|].
  apply Qle_bool_iff in Hle. congruence.
Qed.

Lemma float_of_decimal_nonneg (ss frac : string) :
  all_digits ss = true → all_digits frac = true → 0 <= float_of_decimal ss frac.
Proof.
  intros Hs Hf. unfold float_of_decimal.
  apply int_of_digits_nonneg in Hs, Hf.
  assert (0 < inject_Z (10 ^ Z.of_nat (String.length frac))).
  { change 0 with (inject_Z 0). rewrite <- Zlt_Qlt. lia. }
  assert (0 <= inject_Z (int_of_digits frac)
               / inject_Z (10 ^ Z.of_nat (String.length frac))).
  { apply Qle_shift_div_l; [done|lra]. }
  lra.
Qed.

(** Every percentage the parser yields lies between 0 and 100. *)
Lemma parse_progress_in_percent (line : string) (d p : Q) :
  parse_progress line d = Some p → in_percent p.
Proof.
  unfold parse_progress.
  destruct (Qeq_bool d 0 || Qle_bool d 0)%bool eqn:Hg; [done|].
  apply duration_guard in Hg.
  destruct (re_search match_out_time_ms line) as [g|] eqn:H1.
  - intros [= <-]. apply re_search_Some in H1 as [s' H1].
    apply match_out_time_ms_digits, int_of_digits_nonneg in H1.
    apply clamp_in_percent; [|done].
    unfold Qdiv. change (/ 1000000) with (1 # 1000000). lra.
  - destruct (re_search match_time line) as [[[[hh mm] ss] frac]|] eqn:H2; [|done].
    intros [= <-]. apply re_search_Some in H2 as [s' H2].
    apply match_time_digits in H2 as (Hh & Hm & Hs & Hf).
    apply int_of_digits_nonneg in Hh, Hm.
    pose proof (float_of_decimal_nonneg ss frac Hs Hf).
    apply clamp_in_percent; [|done]. lra.
Qed.

End ParserRange.

Section RunInvariant.

Variables (srv : request_event → world → world).
Variables (h : nat) (rc : Z) (duration : Q) (cb : Q → M unit).
Variables (allowed trig : event → Prop).
Variables (P Q : world → Prop).

Hypothesis P_occur : ∀ e w, allowed e → P w → P (occur srv h rc e w).
Hypothesis P_cb : ∀ p w, in_percent p → P w → ∃ w', cb p w = Ret tt w' ∧ P w'.
Hypothesis Q_occur : ∀ e w, allowed e → P w → Q w → Q (occur srv h rc e w).
Hypothesis Q_trig : ∀ e w, allowed e → trig e → P w → Q (occur srv h rc e w).
Hypothesis Q_cb : ∀ p w w', P w → Q w → cb p w = Ret tt w' → Q w'.



End RunInvariant.

Section ServeFrames.






Lemma reap_tasks h rc w : tasks (reap h rc w) = tasks w.
Proof.
  unfold reap. destruct (procs w !! h) as [p|]; [|done]. by destruct (returncode p).
Qed.


Lemma reap_observed h rc w : observed (reap h rc w) = observed w.
Proof.
  unfold reap. destruct (procs w !! h) as [p|]; [|done]. by destruct (returncode p).
Qed.


Lemma update_file_eq (t : string) (idx : nat) (g : FileStatus → FileStatus)
    (w : world) (td : task_data) (f : FileStatus) :
  tasks w !! t = Some td → t_files td !! idx = Some f →
  update_file t idx g w
  = Ret tt (set_tasks (fun m => <[t := with_files (<[idx := g f]> (t_files td)) td]> m) w).
Proof. intros Htd Hf. unfold update_file. by rewrite Htd, Hf. Qed.


End ServeFrames.

Section Running.

Variables (t : string) (idx h : nat) (rc : Z).




End Running.

(** ** Outcome of an interrupted run *)

Section Interrupted.

Variables (E : env) (t : string) (idx : nat).




End Interrupted.



(** ** A run that is not paused *)

Section Undisturbed.

Variables (t : string) (idx h : nat) (rc : Z) (fs0 : list FileStatus).











End Undisturbed.

Section UninterruptedRun.

Variables (E : env) (t : string) (idx : nat).







End UninterruptedRun.

Section ProcessOne.

Variables (E : env) (t : string) (request : ConvertRequest).



End ProcessOne.

(** ** The driving loop *)

Section Loop.

Variables (E : env) (t : string) (request : ConvertRequest).
Variable scripts : nat → proc_script.

Lemma batch_loop_step (idx : nat) (name : string) (rest : list string)
    (w : world) (td : task_data) (f0 : FileStatus) :
  tasks w !! t = Some td → t_stopped td = false →
  t_files td !! idx = Some f0 → status f0 ≠ COMPLETED →
  batch_loop E t request scripts idx (name :: rest) w
  = match process_one E t request idx name (scripts idx) w with
    | Ret true w' => Ret tt w'
    | Ret false w' => batch_loop E t request scripts (S idx) rest w'
    | Exc e w' => Exc e w'
    end.
Proof.
  intros Htd Hstop Hf0 Hst. cbn [batch_loop]. rewrite Htd, Hstop, Hf0.
  destruct (TaskStatus_eqb (status f0) COMPLETED) eqn:Heq.
  { by destruct (status f0). }
  unfold mbind, M_bind, bind.
  destruct (process_one E t request idx name (scripts idx) w) as [[|] w'|e w'];
    done.
Qed.




End Loop.

Section LoopExamples.




End LoopExamples.

(** ** Resume *)

Section Resume.

Variable E : env.

Lemma infer_output_format_none (fs : list FileStatus) :
  (∀ f, f ∈ fs → truthy_opt (output_file f) = false) →
  infer_output_format fs = "mp4"%string.
Proof.
  induction fs as [|f fs IH]; intros H; [done|].
  cbn [infer_output_format]. rewrite (H f) by left.
  apply IH. intros g Hg. apply H. by right.
Qed.

Lemma infer_output_format_first (pre post : list FileStatus) (f : FileStatus) (p : string) :
  (∀ g, g ∈ pre → truthy_opt (output_file g) = false) →
  output_file f = Some p → truthy p = true →
  infer_output_format (pre ++ f :: post) = lstrip_dot (PyPath.suffix p).
Proof.
  intros Hpre Hf Hp. induction pre as [|g pre IH]; cbn [app infer_output_format].
  - rewrite Hf. cbn [truthy_opt]. by rewrite Hp.
  - rewrite (Hpre g) by left. apply IH. intros g' Hg'. apply Hpre. by right.
Qed.

(** C8 (amended): a resume of an existing task that records its source tag
    reuses that tag and the (possibly resynchronized) file names, and clears
    the stop flag; the output format is not recorded but inferred: it is the
    extension of the output path of the first file that has one, and "mp4"
    when no file has an output path; the other options are the defaults. *)
Theorem resume_reuses_source_and_infers_format
    (t : string) (names : option (list string)) (w : world)
    (td : task_data) (src : FileSource) :
  tasks w !! t = Some td → t_source td = Some src →
  ∃ req w' td',
    resume_task E t names w = Ret req w'
    ∧ tasks w' !! t = Some td'
    ∧ (names = None → t_files td' = t_files td)
    ∧ t_stopped td' = false
    ∧ source req = src
    ∧ files req = map filename (t_files td')
    ∧ ((∀ f, f ∈ t_files td' → truthy_opt (output_file f) = false) →
       output_format req = "mp4"%string)
    ∧ (∀ pre f p post,
         t_files td' = pre ++ f :: post →
         (∀ g, g ∈ pre → truthy_opt (output_file g) = false) →
         output_file f = Some p → truthy p = true →
         output_format req = lstrip_dot (PyPath.suffix p))
    ∧ video_codec req = "libx264"%string ∧ audio_codec req = "aac"%string
    ∧ resolution req = None ∧ video_bitrate req = None ∧ frame_rate req = None
    ∧ audio_bitrate req = None ∧ sample_rate req = None
    ∧ audio_channels req = None ∧ volume_adjust req = None.
Proof.
  intros Htd Hsrc. unfold resume_task. rewrite Htd.
  unfold mbind, M_bind, bind, gets.
  set (td1 := match names with
              | Some ns => with_total_files (length (resync ns (t_files td)))
                             (with_files (resync ns (t_files td)) td)
              | None => td
              end).
  set (w1 := match names with
             | Some ns => set_tasks (fun m => <[t := td1]> m) w
             | None => w
             end).
  assert (H1 : match names with
               | Some ns => update_task t
                   (λ td0, with_total_files (length (resync ns (t_files td0)))
                             (with_files (resync ns (t_files td0)) td0))
               | None => skip
               end w = Ret tt w1).
  { unfold w1, td1. destruct names as [ns|]; [|done].
    by rewrite (update_task_eq t _ w td Htd). }
  rewrite H1.
  assert (Htd1 : tasks w1 !! t = Some td1).
  { unfold w1. destruct names; [apply lookup_insert_eq|done]. }
  rewrite (update_task_eq t _ w1 td1 Htd1).
  cbn [tasks set_tasks]. rewrite lookup_insert_eq.
  assert (Hsrc1 : t_source (with_flags false td1) = Some src).
  { unfold td1. by destruct names. }
  rewrite Hsrc1. unfold ret.
  eexists _, _, (with_flags false td1). split; [reflexivity|].
  cbn [tasks set_tasks source files output_format video_codec audio_codec
       resolution video_bitrate frame_rate audio_bitrate sample_rate
       audio_channels volume_adjust].
  split; [apply lookup_insert_eq|].
  split; [intros ->; done|].
  split; [done|]. split; [done|]. split; [done|].
  split; [apply infer_output_format_none|].
  split; [|done].
  intros pre f p post Hfs Hpre Hf Hp. rewrite Hfs.
  by apply infer_output_format_first.
Qed.

End Resume.

Lemma resume_reuses_source_and_infers_format_witness :
  ∃ req w' td',
    resume_task E0 "t" None first_run = Ret req w'
    ∧ tasks w' !! "t"%string = Some td'
    ∧ source req = UPLOAD
    ∧ files req = ["a.wav"%string; "b.wav"%string]
    ∧ output_format req = "mp3"%string.
Proof.
  destruct (resume_reuses_source_and_infers_format E0 "t" None first_run
              first_run_task UPLOAD eq_refl eq_refl)
    as (req & w' & td' & Hret & Htd' & Hfs & _ & Hsrc & Hfiles & _ & Hfmt & _).
  exists req, w', td'. rewrite (Hfs eq_refl) in Hfiles, Hfmt.
  split; [exact Hret|]. split; [exact Htd'|]. split; [exact Hsrc|].
  split; [exact Hfiles|].
  apply (Hfmt [] (set_output_size 1234
                    (file_in "a.wav" COMPLETED 100 (Some "outputs/a.mp3"%string)))
           "outputs/a.mp3"%string [file_in "b.wav" PENDING 0 None]).
  - vm_compute. reflexivity.
  - intros g Hg. inversion Hg.
  - reflexivity.
  - reflexivity.
Defined.

(** The claim as stated fails: after a run that was submitted with output
    format mp3 and paused before any file completed, the resumed run targets
    mp4. *)
Lemma resume_output_format_counterexample :
  output_format two_wavs = "mp3"%string
  ∧ ∃ req w' td,
      resume_task E0 "t" None paused_run = Ret req w'
      ∧ tasks paused_run !! "t"%string = Some td
      ∧ map status (t_files td) = [PENDING; PENDING]
      ∧ source req = source two_wavs
      ∧ output_format req = "mp4"%string
      ∧ output_format req ≠ output_format two_wavs.
Proof.
  split; [reflexivity|].
  eexists _, _, _. split; [vm_compute; reflexivity|].
  split; [vm_compute; reflexivity|].
  split; [reflexivity|]. split; [reflexivity|]. split; [reflexivity|].
  discriminate.
Qed.

(** ** Properties kept by every step of a run *)

Section KeepsCombinators.

Variable I : world → Prop.

Lemma keeps_ret {A} (a : A) : keeps I (ret a).
Proof. by intros w. Qed.

Lemma keeps_skip : keeps I skip.
Proof. by intros w. Qed.

Lemma keeps_raise {A} (e : exn) : keeps I (raise e : M A).
Proof. by intros w. Qed.

Lemma keeps_bind {A B} (m : M A) (k : A → M B) :
  keeps I m → (∀ a, keeps I (k a)) → keeps I (m ≫= k).
Proof.
  intros Hm Hk w Hw. unfold mbind, M_bind, bind.
  specialize (Hm w Hw). destruct (m w) as [a w'|e w']; [by apply Hk|done].
Qed.

Lemma keeps_modify (f : world → world) :
  (∀ w, I w → I (f w)) → keeps I (modify f).
Proof. intros Hf w Hw. by apply Hf. Qed.

Lemma keeps_gets {A} (f : world → A) : keeps I (gets f).
Proof. by intros w. Qed.

Lemma keeps_try_except {A} (m : M A) (hdl : exn → M A) :
  keeps I m → (∀ e, keeps I (hdl e)) → keeps I (try_except m hdl).
Proof.
  intros Hm Hh w Hw. unfold try_except.
  specialize (Hm w Hw). destruct (m w) as [a w'|e w']; [done|by apply Hh].
Qed.

End KeepsCombinators.

Section Keeps.

Variable I : world → Prop.

Hypothesis I_frame : ∀ w w', tasks w' = tasks w → observed w' = observed w → I w → I w'.
Hypothesis I_serve : ∀ r w, I w → I (serve r w).
Hypothesis I_update_file : ∀ t idx g,
  (∀ f, in_percent (progress f) → in_percent (progress (g f))) →
  keeps I (update_file t idx g).
Hypothesis I_clear_stopped : ∀ t, keeps I (update_task t clear_stopped).
Hypothesis I_recompute : ∀ t, keeps I (recompute_overall t).

Lemma in_percent_0 : in_percent 0.
Proof. split; lra. Qed.

Lemma in_percent_100 : in_percent 100.
Proof. split; lra. Qed.

Lemma keeps_progress_callback (t : string) (idx : nat) (p : Q) :
  in_percent p → keeps I (progress_callback t idx p).
Proof.
  intros Hp. apply keeps_bind; [by apply I_update_file|].
  intros _. apply I_recompute.
Qed.

Lemma keeps_occur (h : nat) (rc : Z) (e : event) (w : world) :
  I w → I (occur serve h rc e w).
Proof.
  intros Hw. destruct e as [|r]; cbn [occur]; [|by apply I_serve].
  apply (I_frame w); [apply reap_tasks|apply reap_observed|done].
Qed.

Lemma keeps_deliver (h : nat) (rc : Z) (evs : list event) (w : world) :
  I w → I (deliver serve h rc evs w).
Proof.
  unfold deliver. revert w. induction evs as [|e evs IH]; intros w Hw; [done|].
  cbn [fold_left]. apply IH. by apply keeps_occur.
Qed.

Lemma keeps_cleanup (task_id : option string) (w : world) :
  I w → I (cleanup task_id w).
Proof.
  intros Hw. unfold cleanup. destruct task_id as [t|]; [|done].
  destruct (truthy t && _); [|done]. by apply (I_frame w).
Qed.

Variable E : env.

Lemma keeps_read_lines (h : nat) (rc : Z) (d : Q) (cb : option (Q → M unit))
    (lines : list (list event * string)) :
  (∀ c p, cb = Some c → in_percent p → keeps I (c p)) →
  keeps I (read_lines serve h rc d cb lines).
Proof.
  intros Hcb. induction lines as [|[evs line] lines IH]; [apply keeps_skip|].
  cbn [read_lines]. apply keeps_bind.
  { apply keeps_modify. intros w. apply keeps_deliver. }
  intros _. apply keeps_bind; [|by intros _].
  destruct cb as [c|]; [|apply keeps_skip].
  destruct (negb (Qle_bool d 0)); [|apply keeps_skip].
  destruct (parse_progress line d) as [p|] eqn:Hp; [|apply keeps_skip].
  apply (Hcb c p eq_refl). by eapply parse_progress_in_percent.
Qed.

Lemma keeps_classify (h : nat) (cb : option (Q → M unit)) (task_id : option string) :
  (∀ c p, cb = Some c → in_percent p → keeps I (c p)) →
  keeps I (classify h cb task_id).
Proof.
  intros Hcb. unfold classify.
  apply keeps_bind; [apply keeps_gets|]. intros wt.
  apply keeps_bind; [apply keeps_modify, keeps_cleanup|]. intros _.
  apply keeps_bind.
  { intros w Hw. unfold proc_returncode. by destruct (procs w !! h). }
  intros rc. destruct (bool_decide (rc = Some 0%Z)).
  - apply keeps_bind; [|intros _; apply keeps_ret].
    destruct cb as [c|]; [|apply keeps_skip].
    apply (Hcb c 100%Q eq_refl). apply in_percent_100.
  - destruct wt; apply keeps_ret.
Qed.

Lemma keeps_run_encoder (cmd : list string) (input_file : string)
    (cb : option (Q → M unit)) (task_id : option string) (sc : proc_script) :
  (∀ c p, cb = Some c → in_percent p → keeps I (c p)) →
  keeps I (run_encoder E serve cmd input_file cb task_id sc).
Proof.
  intros Hcb. unfold run_encoder.
  apply keeps_bind.
  { intros w Hw. unfold spawn. destruct (ps_spawn_error sc); [done|].
    cbn [world_of]. by apply (I_frame w). }
  intros h. apply keeps_bind.
  { destruct (truthy_opt task_id); [|apply keeps_skip].
    apply keeps_modify. intros w. by apply I_frame. }
  intros _. apply keeps_bind; [by apply keeps_read_lines|]. intros _.
  apply keeps_bind; [apply keeps_modify; intros w; apply keeps_deliver|].
  intros _.
  apply keeps_bind; [apply keeps_modify; intros w; apply keeps_deliver|].
  intros _.
  apply keeps_bind; [apply keeps_modify; intros w; apply (keeps_occur _ _ Reaped)|].
  intros _. by apply keeps_classify.
Qed.

Lemma keeps_guarded (task_id : option string) (body : M (option bool)) :
  keeps I body → keeps I (guarded task_id body).
Proof.
  intros Hb w Hw. unfold guarded. specialize (Hb w Hw).
  destruct (body w) as [a w'|e w']; [done|].
  destruct e; cbn [world_of] in *; by apply keeps_cleanup.
Qed.

Lemma keeps_convert_file (input_file output_file : string) (options : ConvertRequest)
    (cb : option (Q → M unit)) (task_id : option string) (sc : proc_script) :
  (∀ c p, cb = Some c → in_percent p → keeps I (c p)) →
  keeps I (convert_file E serve input_file output_file options cb task_id sc).
Proof.
  intros Hcb. unfold convert_file.
  destruct (get_media_type input_file) as [[|]|]; [| |apply keeps_ret].
  - unfold convert_audio. apply keeps_guarded, keeps_bind.
    + unfold get_ffmpeg_command. destruct (ffmpeg_command E);
        [apply keeps_ret|apply keeps_raise].
    + intros ffmpeg. by apply keeps_run_encoder.
  - unfold convert_video. apply keeps_guarded, keeps_bind.
    + unfold get_ffmpeg_command. destruct (ffmpeg_command E);
        [apply keeps_ret|apply keeps_raise].
    + intros ffmpeg. by apply keeps_run_encoder.
Qed.

Lemma keeps_process_one_body (t : string) (request : ConvertRequest) (idx : nat)
    (name : string) (sc : proc_script) :
  keeps I (process_one_body E t request idx name sc).
Proof.
  unfold process_one_body.
  apply keeps_bind.
  { apply I_update_file. intros f _. apply in_percent_0. }
  intros _. destruct (negb (path_exists E _)); [apply keeps_raise|].
  apply keeps_bind.
  { apply keeps_convert_file. intros c p [= <-] Hp.
    by apply keeps_progress_callback. }
  intros [[|]|].
  - apply keeps_bind.
    { apply I_update_file. intros f _. apply in_percent_100. }
    intros _. apply keeps_bind; [|intros _; apply keeps_ret].
    destruct (stat_size E _); [|apply keeps_skip].
    by apply I_update_file.
  - apply keeps_bind; [|intros _; apply keeps_ret].
    by apply I_update_file.
  - apply keeps_bind; [|intros _; apply keeps_ret].
    apply I_update_file. intros f _. apply in_percent_0.
Qed.

Lemma keeps_process_one (t : string) (request : ConvertRequest) (idx : nat)
    (name : string) (sc : proc_script) :
  keeps I (process_one E t request idx name sc).
Proof.
  unfold process_one. apply keeps_try_except; [apply keeps_process_one_body|].
  intros e. apply keeps_bind; [|intros _; apply keeps_ret].
  by apply I_update_file.
Qed.

Lemma keeps_batch_loop (t : string) (request : ConvertRequest)
    (scripts : nat → proc_script) (names : list string) (idx : nat) :
  keeps I (batch_loop E t request scripts idx names).
Proof.
  revert idx. induction names as [|name rest IH]; intros idx; [apply keeps_skip|].
  intros w Hw. cbn [batch_loop].
  destruct (tasks w !! t) as [td|]; [|done].
  destruct (t_stopped td); [done|].
  destruct (t_files td !! idx) as [f|]; [|done].
  destruct (TaskStatus_eqb (status f) COMPLETED); [by apply IH|].
  revert w Hw. apply keeps_bind; [apply keeps_process_one|].
  intros [|]; [apply keeps_skip|apply IH].
Qed.

Lemma keeps_process_batch_convert (t : string) (request : ConvertRequest)
    (scripts : nat → proc_script) (w : world) :
  I w → I (process_batch_convert E t request scripts w).
Proof.
  unfold process_batch_convert. revert w.
  change (keeps I (try_except
    (update_task t clear_stopped;;
     batch_loop E t request scripts 0 (files request);;
     recompute_overall t) (λ _, skip))).
  apply keeps_try_except; [|intros _; apply keeps_skip].
  apply keeps_bind; [apply I_clear_stopped|]. intros _.
  apply keeps_bind; [apply keeps_batch_loop|]. intros _.
  apply I_recompute.
Qed.


End Keeps.

(** ** Progress values stay between 0 and 100 *)

Section Percent.

Local Abbreviation I := world_in_percent.

Lemma in_percent_frame (w w' : world) :
  tasks w' = tasks w → observed w' = observed w → I w → I w'.
Proof. intros Ht Ho [H1 H2]. split; [by rewrite Ht | by rewrite Ho]. Qed.

Lemma in_percent_set_task (w : world) (t : string) (td : task_data) :
  I w → files_in_percent (t_files td) →
  I (set_tasks (fun m => <[t := td]> m) w).
Proof.
  intros [H1 H2] Htd. split; [|done].
  intros t' td'. cbn [tasks set_tasks].
  destruct (decide (t = t')) as [->|Hne].
  - rewrite lookup_insert_eq. by intros [= <-].
  - rewrite lookup_insert_ne by done. apply H1.
Qed.

Lemma files_in_percent_insert (fs : list FileStatus) (idx : nat) (f : FileStatus) :
  files_in_percent fs → in_percent (progress f) →
  files_in_percent (<[idx := f]> fs).
Proof. intros Hfs Hf. by apply Forall_insert. Qed.




Lemma reset_processing_in_percent (fs : list FileStatus) :
  files_in_percent fs → files_in_percent (map reset_processing fs).
Proof.
  intros H. apply Forall_map. eapply Forall_impl; [exact H|].
  intros f Hf. unfold reset_processing.
  destruct (TaskStatus_eqb (status f) PROCESSING); [apply in_percent_0|done].
Qed.



End Percent.

(** ** The driving loop always reaches its final recomputation *)

Section LoopReturns.

Variables (E : env) (t : string) (n : nat).

Local Abbreviation J := (has_files t n).



Lemma has_files_set_task (w : world) (t' : string) (td td' : task_data) :
  tasks w !! t' = Some td → length (t_files td') = length (t_files td) →
  J w → J (set_tasks (fun m => <[t' := td']> m) w).
Proof.
  intros Htd Hlen (td0 & Htd0 & Hn). unfold has_files. cbn [tasks set_tasks].
  destruct (decide (t' = t)) as [->|Hne].
  - rewrite lookup_insert_eq. exists td'. split; [done|].
    rewrite Htd in Htd0. injection Htd0 as <-. lia.
  - rewrite lookup_insert_ne by done. eauto.
Qed.


Lemma has_files_clear_stopped (t' : string) : keeps J (update_task t' clear_stopped).
Proof.
  intros w Hw. unfold update_task.
  destruct (tasks w !! t') as [td|] eqn:Htd; [|done].
  cbn [world_of]. by apply (has_files_set_task w t' td).
Qed.





End LoopReturns.

(** ** Progress bounds and the aggregate progress *)

Section Aggregate.

Variable E : env.

Lemma resync_in_percent (names : list string) (fs : list FileStatus) :
  files_in_percent fs → files_in_percent (resync names fs).
Proof.
  intros H. unfold resync, files_in_percent. apply Forall_app. split.
  - apply Forall_forall. intros f Hf.
    apply list_elem_of_In, filter_In in Hf as [Hf _].
    unfold files_in_percent in H. rewrite Forall_forall in H.
    apply H. by apply list_elem_of_In.
  - apply Forall_map, Forall_forall. intros nm _. cbn. split; lra.
Qed.




End Aggregate.



(** * Further properties *)

Import Formats Conflict More.

(** ** Progress parser *)

Section ParserMore.

Local Open Scope Q_scope.

(** X1: for a duration that is zero or negative the parser yields no result,
    whatever the line. *)
Theorem parse_progress_without_duration (line : string) (d : Q) :
  d <= 0 → parse_progress line d = None.
Proof.
  intros Hd. unfold parse_progress.
  apply Qle_bool_iff in Hd. rewrite Hd. by rewrite orb_true_r.
Qed.

Lemma parse_progress_without_duration_witness :
  parse_progress "out_time_ms=5000000" (-3) = None.
Proof. apply parse_progress_without_duration. by vm_compute. Defined.

(** X2: whatever the line, a result of the parser comes from a positive
    duration, lies between 0 and 100 and is a whole number of hundredths. *)
Theorem parse_progress_result_range (line : string) (d p : Q) :
  parse_progress line d = Some p →
  0 < d ∧ in_percent p ∧ ∃ k : Z, p == inject_Z k / 100.
Proof.
  intros H. split; [|split].
  - unfold parse_progress in H.
    destruct (Qeq_bool d 0 || Qle_bool d 0)%bool eqn:Hg; [done|].
    by apply duration_guard.
  - by eapply parse_progress_in_percent.
  - unfold parse_progress in H.
    destruct (Qeq_bool d 0 || Qle_bool d 0)%bool; [done|].
    destruct (re_search match_out_time_ms line).
    + injection H as <-. apply round2_decimal.
    + destruct (re_search match_time line) as [[[[? ?] ?] ?]|]; [|done].
      injection H as <-. apply round2_decimal.
Qed.

Lemma parse_progress_result_range_witness :
  0 < 100 ∧ in_percent (1669 # 20) ∧ ∃ k : Z, (1669 # 20) == inject_Z k / 100.
Proof.
  apply (parse_progress_result_range "size=1 time=00:01:23.45 bitrate" 100).
  reflexivity.
Defined.







End ParserMore.

(** ** Format checks *)

Section FormatsMore.

Local Open Scope string_scope.

Lemma str_in_In (x : string) (xs : list string) :
  str_in x xs = true ↔ In x xs.
Proof.
  unfold str_in. rewrite existsb_exists. split.
  - intros (y & Hy & Heq). apply String.eqb_eq in Heq. by subst.
  - intros H. exists x. split; [done|apply String.eqb_refl].
Qed.

Lemma audio_video_disjoint (x : string) :
  str_in x SUPPORTED_AUDIO = true → str_in x SUPPORTED_VIDEO = false.
Proof.
  rewrite str_in_In. intros H. cbn in H.
  repeat (destruct H as [<-|H]; [reflexivity|]). done.
Qed.

(** X4: [validate_format_conversion] accepts exactly a supported video
    source with any supported target and a supported audio source with an
    audio target; an audio source is never accepted for a video target.  It
    returns an empty message when it accepts and a message when it refuses. *)
Theorem validate_format_conversion_accepts (source_filename target_format : string) :
  let r := validate_format_conversion source_filename target_format in
  let audio_target := str_in (lower target_format) SUPPORTED_AUDIO in
  let video_target := str_in (lower target_format) SUPPORTED_VIDEO in
  (fst r = true ↔
     (get_media_type source_filename = Some VIDEO
      ∧ (audio_target = true ∨ video_target = true))
     ∨ (get_media_type source_filename = Some AUDIO ∧ audio_target = true))
  ∧ (get_media_type source_filename = Some AUDIO → video_target = true →
     fst r = false)
  ∧ (fst r = true → snd r = "")
  ∧ (fst r = false → snd r ≠ "")
  ∧ (fst r = true → is_supported_format source_filename = true).
Proof.
  cbv zeta. unfold validate_format_conversion, is_supported_format.
  destruct (str_in (lower target_format) SUPPORTED_AUDIO) eqn:Ha.
  - rewrite (audio_video_disjoint _ Ha).
    destruct (get_media_type source_filename) as [[|]|]; cbn [fst snd];
      (split; [split; [intros H; try discriminate; tauto
                      |intros [[H _]|[H _]]; congruence]|]);
      repeat split; try done; try discriminate.
  - destruct (str_in (lower target_format) SUPPORTED_VIDEO) eqn:Hv.
    + destruct (get_media_type source_filename) as [[|]|]; cbn [fst snd];
        (split; [split; [intros H; try discriminate; tauto
                        |intros [[H [?|?]]|[H ?]]; congruence]|]);
        repeat split; try done; try discriminate.
    + cbn [fst snd].
      split; [split; [discriminate|intros [[_ [?|?]]|[_ ?]]; discriminate]|].
      repeat split; try done; discriminate.
Qed.

End FormatsMore.

(** ** Compatibility policy and command builder, further *)

Section PolicyMore.

Lemma eqb_copy (s : string) : String.eqb s "copy" = true ↔ s = "copy".
Proof. apply String.eqb_eq. Qed.

(** X5: the audio policy keeps copy mode exactly when copy was requested,
    no audio parameter was supplied and the pair of extensions is not in the
    table; the codec it selects is ["copy"] exactly when copy mode is in
    effect; and a command built in copy mode carries no audio parameter. *)
Theorem audio_copy_mode_consistent (ffmpeg input_file output_file codec : string)
    (p : AudioParams) :
  let r := audio_policy input_file output_file codec p in
  (fst r = true ↔
     codec = "copy" ∧ has_audio_params p = false
     ∧ pair_in (PyPath.ext_lower input_file, PyPath.ext_lower output_file)
               incompatible_combinations = false)
  ∧ (fst r = true ↔ snd r = "copy")
  ∧ (fst r = true →
     audio_cmd ffmpeg input_file output_file codec p
     = [ffmpeg; "-i"; input_file; "-c:a"; "copy";
        "-progress"; "pipe:2"; "-y"; output_file]).
Proof.
  cbv zeta.
  assert (Hcases :
    (audio_policy input_file output_file codec p = (true, "copy")
     ∧ codec = "copy" ∧ has_audio_params p = false
     ∧ pair_in (PyPath.ext_lower input_file, PyPath.ext_lower output_file)
               incompatible_combinations = false)
    ∨ (∃ c, audio_policy input_file output_file codec p = (false, c)
            ∧ c ≠ "copy"
            ∧ (codec ≠ "copy" ∨ has_audio_params p = true
               ∨ pair_in (PyPath.ext_lower input_file, PyPath.ext_lower output_file)
                         incompatible_combinations = true))).
  { unfold audio_policy.
    destruct (String.eqb codec "copy") eqn:Hc.
    - apply String.eqb_eq in Hc. subst codec.
      destruct (pair_in _ incompatible_combinations) eqn:Hp.
      + right. cbn [negb andb].
        destruct (String.eqb (PyPath.ext_lower output_file) "mp3");
          [eexists; split; [reflexivity|]; split; [discriminate|tauto]|].
        destruct (str_in (PyPath.ext_lower output_file) ["aac"; "m4a"]) eqn:H1.
        * assert (H2 : str_in (PyPath.ext_lower output_file) ["m4a"; "aac"] = true).
          { apply str_in_In. apply str_in_In in H1. cbn in *. tauto. }
          rewrite H2. eexists; split; [reflexivity|]; split; [discriminate|tauto].
        * assert (H2 : str_in (PyPath.ext_lower output_file) ["m4a"; "aac"] = false).
          { destruct (str_in _ ["m4a"; "aac"]) eqn:H3; [|done].
            apply str_in_In in H3.
            assert (H4 : str_in (PyPath.ext_lower output_file) ["aac"; "m4a"] = true)
              by (apply str_in_In; cbn in *; tauto).
            congruence. }
          rewrite H2.
          destruct (String.eqb (PyPath.ext_lower output_file) "flac");
            eexists; (split; [reflexivity|]); (split; [discriminate|tauto]).
      + cbn [negb andb]. destruct (has_audio_params p) eqn:Hh.
        * right.
          destruct (String.eqb (PyPath.ext_lower output_file) "mp3");
            [eexists; split; [reflexivity|]; split; [discriminate|tauto]|].
          destruct (str_in (PyPath.ext_lower output_file) ["m4a"; "aac"]);
            eexists; (split; [reflexivity|]); (split; [discriminate|tauto]).
        * left. done.
    - right. cbn [negb andb].
      assert (Hne : codec ≠ "copy").
      { intros ->. by rewrite String.eqb_refl in Hc. }
      destruct (String.eqb (PyPath.ext_lower output_file) "mp3");
        [eexists; split; [reflexivity|]; split; [discriminate|tauto]|].
      destruct (str_in (PyPath.ext_lower output_file) ["m4a"; "aac"]);
        eexists; (split; [reflexivity|]); (split; [done || discriminate|tauto]). }
  destruct Hcases as [(Hpol & Hc & Hh & Hp)|(c & Hpol & Hc & Hwhy)].
  - rewrite Hpol. cbn [fst snd]. split; [tauto|]. split; [tauto|].
    intros _. unfold audio_cmd. rewrite Hpol. reflexivity.
  - rewrite Hpol. cbn [fst snd].
    split; [split; [discriminate|]|].
    { intros (H1 & H2 & H3). destruct Hwhy as [?|[?|?]]; congruence. }
    split; [split; [discriminate|congruence]|discriminate].
Qed.

(** X6: an audio parameter that is supplied (not empty) always reaches the
    command line, whatever codec was requested: the policy then selects an
    encoder, never ["copy"]. *)
Theorem audio_params_reach_command (ffmpeg input_file output_file codec : string)
    (p : AudioParams) :
  has_audio_params p = true →
  ∃ c, audio_policy input_file output_file codec p = (false, c)
       ∧ c ≠ "copy"
       ∧ audio_cmd ffmpeg input_file output_file codec p
         = [ffmpeg; "-i"; input_file; "-c:a"; c]
           ++ opt_arg "-b:a" (a_bitrate p) ++ opt_arg "-ar" (a_sample_rate p)
           ++ opt_arg "-ac" (a_channels p)
           ++ match a_volume_adjust p with
              | Some v => if truthy v then ["-af"; "volume=" +:+ v] else []
              | None => []
              end
           ++ ["-progress"; "pipe:2"; "-y"; output_file].
Proof.
  intros Hh.
  destruct (audio_policy input_file output_file codec p) as [m c] eqn:Hpol.
  assert (Hm : m = false ∧ c ≠ "copy").
  { revert Hpol. unfold audio_policy. rewrite Hh.
    destruct (String.eqb codec "copy") eqn:Hc.
    - destruct (pair_in _ incompatible_combinations); cbn [negb andb].
      + destruct (String.eqb (PyPath.ext_lower output_file) "mp3");
          [intros [= <- <-]; split; [done|discriminate]|].
        destruct (str_in (PyPath.ext_lower output_file) ["aac"; "m4a"]);
          destruct (str_in (PyPath.ext_lower output_file) ["m4a"; "aac"]);
          try destruct (String.eqb (PyPath.ext_lower output_file) "flac");
          intros [= <- <-]; split; done || discriminate.
      + destruct (String.eqb (PyPath.ext_lower output_file) "mp3");
          [intros [= <- <-]; split; [done|discriminate]|].
        destruct (str_in (PyPath.ext_lower output_file) ["m4a"; "aac"]);
          intros [= <- <-]; split; done || discriminate.
    - cbn [negb andb].
      assert (Hne : codec ≠ "copy").
      { intros ->. by rewrite String.eqb_refl in Hc. }
      destruct (String.eqb (PyPath.ext_lower output_file) "mp3");
        [intros [= <- <-]; split; [done|discriminate]|].
      destruct (str_in (PyPath.ext_lower output_file) ["m4a"; "aac"]);
        intros [= <- <-]; split; done || discriminate. }
  destruct Hm as [-> Hc]. exists c. split; [done|]. split; [done|].
  unfold audio_cmd. rewrite Hpol. cbn [negb]. by rewrite <- !app_assoc.
Qed.

Lemma audio_params_reach_command_witness :
  ∃ c, audio_policy "uploads/a.flac" "outputs/a.ogg" "copy" bitrate_192k = (false, c)
       ∧ c ≠ "copy"
       ∧ audio_cmd "ffmpeg" "uploads/a.flac" "outputs/a.ogg" "copy" bitrate_192k
         = ["ffmpeg"; "-i"; "uploads/a.flac"; "-c:a"; c]
           ++ opt_arg "-b:a" (a_bitrate bitrate_192k)
           ++ opt_arg "-ar" (a_sample_rate bitrate_192k)
           ++ opt_arg "-ac" (a_channels bitrate_192k)
           ++ match a_volume_adjust bitrate_192k with
              | Some v => if truthy v then ["-af"; "volume=" +:+ v] else []
              | None => []
              end
           ++ ["-progress"; "pipe:2"; "-y"; "outputs/a.ogg"].
Proof.
  apply (audio_params_reach_command "ffmpeg" "uploads/a.flac" "outputs/a.ogg"
           "copy" bitrate_192k).
  reflexivity.
Defined.

(** X7: the audio table is authoritative: for every pair of extensions it
    lists, a copy request is turned into a re-encoding, with libmp3lame for an
    mp3 target, flac for a flac target and aac for every other target. *)
Theorem audio_table_forces_reencoding (input_file output_file : string)
    (p : AudioParams) :
  pair_in (PyPath.ext_lower input_file, PyPath.ext_lower output_file)
          incompatible_combinations = true →
  audio_policy input_file output_file "copy" p
  = (false, table_codec (PyPath.ext_lower output_file)).
Proof.
  intros Hp. unfold audio_policy. rewrite Hp.
  unfold pair_in in Hp. apply existsb_exists in Hp as ([a b] & Hin & Heq).
  cbn [fst snd] in Heq. apply andb_prop in Heq as [Ha Hb].
  apply String.eqb_eq in Ha, Hb. rewrite Hb.
  cbn in Hin.
  repeat (destruct Hin as [[= <- <-]|Hin]; [reflexivity|]). done.
Qed.

Lemma audio_table_forces_reencoding_witness :
  audio_policy "uploads/talk.WAV" "outputs/talk.flac" "copy" no_audio_params
  = (false, "flac").
Proof.
  apply (audio_table_forces_reencoding "uploads/talk.WAV" "outputs/talk.flac"
           no_audio_params).
  reflexivity.
Defined.

End PolicyMore.

Section VideoMore.

(** X8: the video policy never consults the extensions: copy mode stays in
    effect exactly when copy was requested and no resolution, video bitrate
    or frame rate was supplied; a requested encoder is kept as it is; the
    codec selected is ["copy"] exactly in copy mode; supplied video
    parameters always reach the command line; and when the audio stream is
    copied the command carries no audio bitrate. *)
Theorem video_policy_outcome (ffmpeg input_file output_file video_codec : string)
    (p : VideoParams) :
  let r := video_policy input_file output_file video_codec p in
  (fst r = true ↔ video_codec = "copy"%string ∧ has_video_params p = false)
  ∧ (fst r = true ↔ snd r = "copy"%string)
  ∧ (video_codec ≠ "copy"%string → r = (false, video_codec))
  ∧ (has_video_params p = true →
     ∃ rest, video_cmd ffmpeg input_file output_file video_codec p
             = [ffmpeg; "-i"%string; input_file; "-c:v"%string; snd r]
               ++ opt_arg "-s" (v_resolution p)
               ++ opt_arg "-b:v" (v_video_bitrate p)
               ++ opt_arg "-r" (v_frame_rate p)
               ++ ["-c:a"%string; v_audio_codec p] ++ rest)
  ∧ (v_audio_codec p = "copy"%string →
     ∃ front, video_cmd ffmpeg input_file output_file video_codec p
              = front ++ ["-c:a"; "copy"; "-progress"; "pipe:2"; "-y"; output_file]%string).
Proof.
  cbv zeta. unfold video_cmd, video_policy.
  destruct (String.eqb video_codec "copy") eqn:Hc.
  - apply String.eqb_eq in Hc. subst video_codec.
    destruct (has_video_params p) eqn:Hh; cbn [andb fst snd negb].
    + split; [split; [discriminate|intros [_ ?]; discriminate]|].
      split; [split; discriminate|]. split; [done|].
      split.
      * intros _. eexists. rewrite <- !app_assoc. reflexivity.
      * intros Ha. rewrite Ha.
        exists ([ffmpeg; "-i"%string; input_file; "-c:v"%string; "libx264"%string]
                ++ opt_arg "-s" (v_resolution p)
                ++ opt_arg "-b:v" (v_video_bitrate p)
                ++ opt_arg "-r" (v_frame_rate p)).
        cbn. rewrite <- !app_assoc. reflexivity.
    + split; [tauto|]. split; [tauto|]. split; [done|].
      split; [discriminate|].
      intros Ha. rewrite Ha. by exists [ffmpeg; "-i"%string; input_file;
                                       "-c:v"%string; "copy"%string].
  - assert (Hne : video_codec ≠ "copy"%string).
    { intros ->. by rewrite String.eqb_refl in Hc. }
    cbn [andb fst snd negb].
    split; [split; [discriminate|intros [? _]; done]|].
    split; [split; [discriminate|done]|]. split; [done|].
    split.
    + intros _. eexists. rewrite <- !app_assoc. reflexivity.
    + intros Ha. rewrite Ha.
      exists ([ffmpeg; "-i"%string; input_file; "-c:v"%string; video_codec]
              ++ opt_arg "-s" (v_resolution p)
              ++ opt_arg "-b:v" (v_video_bitrate p)
              ++ opt_arg "-r" (v_frame_rate p)).
      cbn. rewrite <- !app_assoc. reflexivity.
Qed.

End VideoMore.

(** ** Handlers *)

Section HandlersMore.

Variable E : env.

(** X9: on a task identifier that is not in the task table, the status
    query, pause, stop and resume all raise the 404 exception and leave the
    whole state as it is. *)
Theorem unknown_task_not_found (task_id : string)
    (names : option (list string)) (w : world) :
  tasks w !! task_id = None →
  get_status task_id w = Exc (HTTPException 404 "任务不存在") w
  ∧ pause_task task_id w = Exc (HTTPException 404 "任务不存在") w
  ∧ stop_task task_id w = Exc (HTTPException 404 "任务不存在") w
  ∧ resume_task E task_id names w = Exc (HTTPException 404 "任务不存在") w.
Proof.
  intros H. unfold get_status, pause_task, stop_task, resume_task. rewrite H.
  repeat split.
Qed.

(** X10: on a task whose file list is empty, [pause_task] raises
    ZeroDivisionError; by then the registry entry of the task is removed and
    its stop flag is set. *)
Theorem pause_task_without_files (task_id : string) (w : world) (td : task_data) :
  tasks w !! task_id = Some td → t_files td = [] →
  ∃ w' td',
    pause_task task_id w = Exc ZeroDivisionError w'
    ∧ ACTIVE_PROCESSES w' !! task_id = None
    ∧ tasks w' !! task_id = Some td'
    ∧ t_stopped td' = true ∧ t_files td' = []
    ∧ t_overall_progress td' = t_overall_progress td.
Proof.
  intros Htd Hfs. rewrite (pause_task_eq task_id w td Htd). cbv zeta.
  rewrite Hfs. eexists _, _. split; [reflexivity|].
  cbn [ACTIVE_PROCESSES tasks set_tasks terminated_world].
  split; [apply lookup_delete_eq|]. split; [apply lookup_insert_eq|].
  unfold paused_task. cbv zeta. rewrite Hfs. cbn. done.
Qed.

End HandlersMore.

Lemma unknown_task_not_found_witness :
  get_status "missing" world_idle = Exc (HTTPException 404 "任务不存在") world_idle
  ∧ pause_task "missing" world_idle = Exc (HTTPException 404 "任务不存在") world_idle
  ∧ stop_task "missing" world_idle = Exc (HTTPException 404 "任务不存在") world_idle
  ∧ resume_task E0 "missing" None world_idle
    = Exc (HTTPException 404 "任务不存在") world_idle.
Proof.
  apply (unknown_task_not_found E0 "missing" None world_idle). reflexivity.
Defined.

Lemma pause_task_without_files_witness :
  ∃ w' td',
    pause_task "t" world_no_files = Exc ZeroDivisionError w'
    ∧ ACTIVE_PROCESSES w' !! "t"%string = None
    ∧ tasks w' !! "t"%string = Some td'
    ∧ t_stopped td' = true ∧ t_files td' = []
    ∧ t_overall_progress td' = t_overall_progress no_files_task.
Proof.
  apply (pause_task_without_files "t" world_no_files no_files_task);
    reflexivity.
Defined.

Section PauseTwice.

Lemma reset_processing_idemp (f : FileStatus) :
  reset_processing (reset_processing f) = reset_processing f.
Proof.
  unfold reset_processing.
  destruct (TaskStatus_eqb (status f) PROCESSING) eqn:H; [done|]. by rewrite H.
Qed.

Lemma paused_task_idemp (td : task_data) :
  paused_task (paused_task td) = paused_task td.
Proof.
  unfold paused_task. cbv zeta.
  assert (Hmap : map reset_processing (map reset_processing (t_files td))
                 = map reset_processing (t_files td)).
  { rewrite map_map. apply map_ext. apply reset_processing_idemp. }
  destruct (mean_progress (map reset_processing (t_files td))) as [x|] eqn:Hm;
    cbn [t_files with_overall_progress with_files with_flags];
    rewrite Hmap, Hm; reflexivity.
Qed.

(** X11: pausing is idempotent: a second pause of the same task leaves the
    state the first pause produced. *)
Theorem pause_task_twice (task_id : string) (w : world) :
  world_of (pause_task task_id (world_of (pause_task task_id w)))
  = world_of (pause_task task_id w).
Proof.
  change (serve (ReqPause task_id) (serve (ReqPause task_id) w)
          = serve (ReqPause task_id) w).
  rewrite (serve_pause_eq task_id w).
  destruct (tasks w !! task_id) as [td|] eqn:Htd.
  - rewrite serve_pause_eq. cbn [tasks set_tasks terminated_world].
    rewrite lookup_insert_eq, paused_task_idemp.
    unfold set_tasks, terminated_world, terminated_procs.
    cbn [tasks ACTIVE_PROCESSES procs observed].
    rewrite lookup_delete_eq, insert_insert_eq.
    rewrite (delete_id (delete task_id (ACTIVE_PROCESSES w)))
      by apply lookup_delete_eq.
    reflexivity.
  - by rewrite serve_pause_eq, Htd.
Qed.

End PauseTwice.

Section SubmitMore.

Variable E : env.

(** X12: a submission is never refused: for any request it creates, under
    the given identifier, one Pending record per file name, in order, with
    progress 0 and no error or output, and aggregate progress 0; it touches
    no other task, no registry entry and no process; and a status query that
    follows returns exactly the answer the submission returned. *)
Theorem convert_creates_pending_task (request : ConvertRequest)
    (task_id : string) (w : world) :
  ∃ r w',
    convert request task_id w = Ret r w'
    ∧ get_status task_id w' = Ret r w'
    ∧ r_task_id r = task_id
    ∧ r_total_files r = length (files request)
    ∧ map filename (r_files r) = files request
    ∧ Forall (λ f, status f = PENDING ∧ progress f = 0%Q ∧ error f = None
                   ∧ output_file f = None ∧ output_size f = None) (r_files r)
    ∧ r_overall_progress r = 0%Q
    ∧ ACTIVE_PROCESSES w' = ACTIVE_PROCESSES w
    ∧ procs w' = procs w
    ∧ ∀ t', t' ≠ task_id → tasks w' !! t' = tasks w !! t'.
Proof.
  eexists _, _. split; [reflexivity|].
  split.
  { unfold get_status. cbn [tasks set_tasks]. by rewrite lookup_insert_eq. }
  cbn [r_task_id r_total_files r_files r_overall_progress t_total_files t_files
       t_overall_progress ACTIVE_PROCESSES procs tasks set_tasks].
  split; [done|]. split; [done|].
  split.
  { rewrite map_map. cbn [filename new_file_status]. apply map_id. }
  split; [by apply Forall_map, Forall_forall|].
  split; [done|]. split; [done|]. split; [done|].
  intros t' Hne. apply lookup_insert_ne. congruence.
Qed.

(** X13: the driving loop clears the stop flag when it starts, so a stop
    served before the run starts is lost: the run is the one that would have
    happened without it. *)
Theorem stop_before_run_is_lost (task_id : string) (request : ConvertRequest)
    (scripts : nat → proc_script) (w : world) (td : task_data) :
  tasks w !! task_id = Some td → t_paused td = false →
  process_batch_convert E task_id request scripts (world_of (stop_task task_id w))
  = process_batch_convert E task_id request scripts w.
Proof.
  intros Htd Hp.
  change (world_of (stop_task task_id w)) with (serve (ReqStop task_id) w).
  rewrite serve_stop_eq, Htd.
  unfold process_batch_convert, try_except, mbind, M_bind, bind.
  rewrite (update_task_eq task_id _ w td Htd).
  rewrite (update_task_eq task_id _ _ (with_flags true td))
    by apply lookup_insert_eq.
  assert (Heq : set_tasks (λ m, <[task_id := clear_stopped (with_flags true td)]> m)
                  (set_tasks (λ m, <[task_id := with_flags true td]> m) w)
                = set_tasks (λ m, <[task_id := clear_stopped td]> m) w).
  { unfold set_tasks. cbn [tasks ACTIVE_PROCESSES procs observed].
    rewrite insert_insert_eq.
    replace (clear_stopped (with_flags true td)) with (clear_stopped td);
      [done|].
    unfold clear_stopped, with_flags. cbn. by rewrite Hp. }
  by rewrite Heq.
Qed.

End SubmitMore.

Lemma stop_before_run_is_lost_witness :
  process_batch_convert E0 "t" two_wavs (λ _, ok_script)
    (world_of (stop_task "t" world_submitted))
  = process_batch_convert E0 "t" two_wavs (λ _, ok_script) world_submitted.
Proof.
  apply (stop_before_run_is_lost E0 "t" two_wavs (λ _, ok_script)
           world_submitted submitted_task); reflexivity.
Defined.

(** ** Resynchronization of the file list on resume *)

Section ResyncMore.

Lemma filter_elem_of {A} (f : A → bool) (l : list A) (x : A) :
  x ∈ List.filter f l ↔ x ∈ l ∧ f x = true.
Proof. rewrite !list_elem_of_In. apply filter_In. Qed.

Lemma str_in_elem_of (x : string) (xs : list string) :
  str_in x xs = true ↔ x ∈ xs.
Proof. rewrite list_elem_of_In. apply str_in_In. Qed.

Lemma str_in_not_elem_of (x : string) (xs : list string) :
  negb (str_in x xs) = true ↔ x ∉ xs.
Proof.
  rewrite negb_true_iff, <- str_in_elem_of. by destruct (str_in x xs).
Qed.

Lemma NoDup_filter' {A} (f : A → bool) (l : list A) :
  NoDup l → NoDup (List.filter f l).
Proof.
  induction 1 as [|x l Hx Hl IH]; cbn; [constructor|].
  destruct (f x); [|done]. constructor; [|done].
  rewrite filter_elem_of. tauto.
Qed.

Lemma map_filter_filename (names : list string) (fs : list FileStatus) :
  map filename (List.filter (λ f, str_in (filename f) names) fs)
  = List.filter (λ n, str_in n names) (map filename fs).
Proof.
  induction fs as [|f fs IH]; [done|]. cbn.
  destruct (str_in (filename f) names); cbn; by rewrite IH.
Qed.

Lemma resync_filenames (names : list string) (fs : list FileStatus) :
  map filename (resync names fs)
  = List.filter (λ n, str_in n names) (map filename fs)
    ++ List.filter (λ n, negb (str_in n (map filename fs))) names.
Proof.
  unfold resync. rewrite map_app, map_filter_filename, map_map.
  cbn [filename new_file_status]. by rewrite map_id.
Qed.

(** X14: the resynchronized list consists of the records whose name is
    still wanted, unchanged and in their order, followed by a fresh Pending
    record for every wanted name the task did not have; its names are exactly
    the wanted names, and when neither list repeats a name they are the
    wanted names up to order. *)
Theorem resync_keeps_and_adds (names : list string) (fs : list FileStatus) :
  (∀ f, f ∈ resync names fs ↔
        (f ∈ fs ∧ filename f ∈ names)
        ∨ (∃ n, n ∈ names ∧ (n ∉ map filename fs) ∧ f = new_file_status n))
  ∧ (∃ added, resync names fs
              = List.filter (λ f, str_in (filename f) names) fs ++ added
              ∧ Forall (λ f, status f = PENDING ∧ progress f = 0%Q
                             ∧ error f = None ∧ output_file f = None) added)
  ∧ (∀ n, n ∈ map filename (resync names fs) ↔ n ∈ names)
  ∧ (NoDup names → NoDup (map filename fs) →
     map filename (resync names fs) ≡ₚ names).
Proof.
  split; [|split; [|split]].
  - intros f. unfold resync. rewrite elem_of_app, filter_elem_of.
    rewrite str_in_elem_of, list_elem_of_fmap.
    split.
    + intros [H|(n & -> & Hn)]; [by left|right].
      apply filter_elem_of in Hn as [Hn Hnot].
      apply str_in_not_elem_of in Hnot. eauto.
    + intros [H|(n & Hn & Hnot & ->)]; [by left|right].
      exists n. split; [done|]. apply filter_elem_of. split; [done|].
      by apply str_in_not_elem_of.
  - eexists. split; [reflexivity|]. by apply Forall_map, Forall_forall.
  - intros n. rewrite resync_filenames, elem_of_app, !filter_elem_of.
    rewrite str_in_elem_of, str_in_not_elem_of.
    destruct (decide (n ∈ map filename fs)); tauto.
  - intros Hn Hfs. rewrite resync_filenames.
    apply NoDup_Permutation.
    + apply NoDup_app. split; [by apply NoDup_filter'|].
      split; [|by apply NoDup_filter'].
      intros n H1 H2. apply filter_elem_of in H1 as [H1 _].
      apply filter_elem_of in H2 as [_ H2].
      by apply str_in_not_elem_of in H2.
    + done.
    + intros n. rewrite elem_of_app, !filter_elem_of.
      rewrite str_in_elem_of, str_in_not_elem_of.
      destruct (decide (n ∈ map filename fs)); tauto.
Qed.

(** X15: resynchronizing against the names the task already has, in any
    order and with any repetition, changes nothing. *)
Theorem resync_same_names (names : list string) (fs : list FileStatus) :
  (∀ n, n ∈ names ↔ n ∈ map filename fs) →
  resync names fs = fs.
Proof.
  intros Hsame. unfold resync.
  assert (H1 : List.filter (λ f, str_in (filename f) names) fs = fs).
  { apply forallb_filter_id, forallb_forall. intros f Hf.
    apply str_in_elem_of, Hsame, list_elem_of_fmap.
    exists f. split; [done|]. by apply list_elem_of_In. }
  assert (H2 : List.filter (λ n, negb (str_in n (map filename fs))) names = []).
  { induction names as [|n names IH]; [done|]. cbn.
    destruct (str_in n (map filename fs)) eqn:Hn.
    - cbn. clear IH. enough (H : ∀ l, (∀ x, x ∈ l → x ∈ map filename fs) →
        List.filter (λ n, negb (str_in n (map filename fs))) l = []).
      { apply H. intros x Hx. apply Hsame. by right. }
      induction l as [|x l IHl]; intros Hl; [done|]. cbn.
      assert (Hx : str_in x (map filename fs) = true).
      { apply str_in_elem_of, Hl. left. }
      rewrite Hx. cbn. apply IHl. intros y Hy. apply Hl. by right.
    - exfalso. assert (H : str_in n (map filename fs) = true).
      { apply str_in_elem_of, Hsame. left. }
      congruence. }
  rewrite H1, H2. cbn. apply app_nil_r.
Qed.

End ResyncMore.

Lemma resync_same_names_witness :
  resync ["b.wav"; "a.wav"; "c.wav"; "a.wav"]%string (t_files three_files)
  = t_files three_files.
Proof.
  apply resync_same_names. intros n. cbn.
  rewrite !elem_of_cons, !elem_of_nil. tauto.
Defined.

(** ** The registry after a conversion *)

Section NoLeak.

Variables (E : env) (t : string).

Lemma returns_unregistered_bind {A B} (m : M A) (k : A → M B) :
  (∀ a, returns_unregistered t (k a)) → returns_unregistered t (m ≫= k).
Proof.
  intros Hk w b w' H. unfold mbind, M_bind, bind in H.
  destruct (m w) as [a w1|e w1]; [by eapply Hk|done].
Qed.

Lemma progress_callback_registry (t' : string) (idx : nat) (p : Q) (w : world) :
  ACTIVE_PROCESSES (world_of (progress_callback t' idx p w)) = ACTIVE_PROCESSES w
  ∧ procs (world_of (progress_callback t' idx p w)) = procs w.
Proof.
  unfold progress_callback, mbind, M_bind, bind, update_file, recompute_overall.
  destruct (tasks w !! t') as [td|]; [|done].
  destruct (t_files td !! idx) as [f|]; [|done].
  cbn [tasks set_tasks]. rewrite lookup_insert_eq.
  by destruct (mean_progress _).
Qed.

Lemma cleanup_unregisters (w : world) :
  truthy t = true → ACTIVE_PROCESSES (cleanup (Some t) w) !! t = None.
Proof.
  intros Ht. unfold cleanup. rewrite Ht. cbn [andb].
  destruct (ACTIVE_PROCESSES w !! t) as [h|] eqn:Hreg.
  - rewrite bool_decide_eq_true_2 by eauto. apply lookup_delete_eq.
  - rewrite bool_decide_eq_false_2; [done|]. by intros [? ?].
Qed.

Lemma classify_unregisters (h : nat) (t' : string) (idx : nat) :
  truthy t = true →
  returns_unregistered t (classify h (Some (progress_callback t' idx)) (Some t)).
Proof.
  intros Ht w a w' H.
  unfold classify, mbind, M_bind, bind, gets, modify in H.
  pose proof (cleanup_unregisters w Ht) as Hclean.
  set (w1 := cleanup (Some t) w) in *.
  destruct (proc_returncode h w1) as [rc w2|e w2] eqn:Hrc; [|done].
  assert (w2 = w1) as ->.
  { unfold proc_returncode in Hrc. destruct (procs w1 !! h); congruence. }
  destruct (bool_decide (rc = Some 0%Z)).
  - pose proof (progress_callback_registry t' idx 100 w1) as [Hact _].
    destruct (progress_callback t' idx 100 w1) as [[] w3|e w3]; [|done].
    cbn [world_of] in Hact. injection H as _ <-. by rewrite Hact.
  - destruct (truthy t && _); injection H as _ <-; done.
Qed.

Lemma guarded_unregisters (body : M (option bool)) (w : world) :
  truthy t = true → returns_unregistered t body →
  ACTIVE_PROCESSES (world_of (guarded (Some t) body w)) !! t = None.
Proof.
  intros Ht Hbody. unfold guarded.
  destruct (body w) as [a w'|e w'] eqn:Hb.
  - by eapply Hbody.
  - destruct e; cbn [world_of]; by apply cleanup_unregisters.
Qed.

Lemma run_encoder_unregisters (cmd : list string) (input_file t' : string)
    (idx : nat) (sc : proc_script) :
  truthy t = true →
  returns_unregistered t
    (run_encoder E serve cmd input_file (Some (progress_callback t' idx))
       (Some t) sc).
Proof.
  intros Ht. unfold run_encoder.
  apply returns_unregistered_bind. intros h.
  do 5 (apply returns_unregistered_bind; intros _).
  by apply classify_unregisters.
Qed.

(** X16: a conversion of a supported file never leaves its task registered:
    whatever the process and the requests served meanwhile do, and whether
    the conversion returns or raises, the task has no registry entry
    afterwards. *)
Theorem conversion_leaves_no_registry_entry
    (input_file output_file t' : string) (options : ConvertRequest)
    (idx : nat) (sc : proc_script) (w : world) :
  truthy t = true →
  get_media_type input_file ≠ None →
  ACTIVE_PROCESSES
    (world_of (convert_file E serve input_file output_file options
                 (Some (progress_callback t' idx)) (Some t) sc w)) !! t = None.
Proof.
  intros Ht Hmt. unfold convert_file.
  destruct (get_media_type input_file) as [[|]|]; [| |done].
  - unfold convert_audio. apply guarded_unregisters; [done|].
    apply returns_unregistered_bind. intros ffmpeg.
    by apply run_encoder_unregisters.
  - unfold convert_video. apply guarded_unregisters; [done|].
    apply returns_unregistered_bind. intros ffmpeg.
    by apply run_encoder_unregisters.
Qed.

End NoLeak.

Lemma conversion_leaves_no_registry_entry_witness :
  ACTIVE_PROCESSES
    (world_of (convert_file E0 serve "uploads/b.wav" "outputs/b.mp3" two_wavs
                 (Some (progress_callback "t" 1)) (Some "t"%string)
                 failing_script world_three)) !! "t"%string = None.
Proof.
  apply (conversion_leaves_no_registry_entry E0 "t" "uploads/b.wav"
           "outputs/b.mp3" "t" two_wavs 1 failing_script world_three).
  - reflexivity.
  - vm_compute. discriminate.
Defined.

(** ** The aggregate progress stays a percentage *)

Section AggregateRange.

Variable E : env.

Lemma qsum_progress_bounds (fs : list FileStatus) :
  files_in_percent fs →
  (0 <= qsum (map progress fs)
   ∧ qsum (map progress fs) <= 100 * inject_Z (Z.of_nat (length fs)))%Q.
Proof.
  induction 1 as [|f fs [Hf0 Hf100] _ [IH0 IH100]].
  { split; unfold Qle; cbn; lia. }
  cbn [map qsum foldr length]. fold (qsum (map progress fs)).
  rewrite Nat2Z.inj_succ, <- Z.add_1_r, inject_Z_plus.
  change (inject_Z 1) with 1%Q. split; lra.
Qed.

Lemma mean_progress_in_percent (fs : list FileStatus) (x : Q) :
  files_in_percent fs → mean_progress fs = Some x → in_percent x.
Proof.
  intros Hfs Hx.
  assert (Hne : fs ≠ []) by (by intros ->).
  rewrite mean_progress_nonempty in Hx by done. injection Hx as <-.
  apply round2_in_percent.
  destruct (qsum_progress_bounds _ Hfs) as [H0 H100].
  assert (Hn : (0 < inject_Z (Z.of_nat (length fs)))%Q).
  { change 0%Q with (inject_Z 0). rewrite <- Zlt_Qlt.
    destruct fs; [done|cbn [length]; lia]. }
  set (n := inject_Z _) in *. set (s := qsum _) in *. clearbody n s.
  split.
  - apply Qle_shift_div_l; [done|]. lra.
  - apply Qle_shift_div_r; [done|]. lra.
Qed.

Lemma aggregates_frame (w w' : world) :
  tasks w' = tasks w → observed w' = observed w →
  aggregates_in_percent w → aggregates_in_percent w'.
Proof.
  intros Ht Ho (H1 & H2 & H3). split; [by apply (in_percent_frame w)|].
  split; [by rewrite Ht | by rewrite Ho].
Qed.

Lemma aggregates_set_task (w : world) (t : string) (td : task_data) :
  aggregates_in_percent w → files_in_percent (t_files td) →
  in_percent (t_overall_progress td) →
  aggregates_in_percent (set_tasks (fun m => <[t := td]> m) w).
Proof.
  intros (H1 & H2 & H3) Hfs Hov. split; [by apply in_percent_set_task|].
  split; [|done]. intros t' td'. cbn [tasks set_tasks].
  destruct (decide (t = t')) as [->|Hne].
  - rewrite lookup_insert_eq. by intros [= <-].
  - rewrite lookup_insert_ne by done. apply H2.
Qed.

Lemma aggregates_update_file (t : string) (idx : nat) (g : FileStatus → FileStatus) :
  (∀ f, in_percent (progress f) → in_percent (progress (g f))) →
  keeps aggregates_in_percent (update_file t idx g).
Proof.
  intros Hg w Hw. unfold update_file.
  destruct (tasks w !! t) as [td|] eqn:Htd; [|done].
  destruct (t_files td !! idx) as [f|] eqn:Hf; [|done].
  cbn [world_of]. pose proof Hw as ((Hfs & _) & Hov & _).
  apply aggregates_set_task; [done| |exact (Hov t td Htd)].
  cbn [t_files with_files]. specialize (Hfs t td Htd).
  apply files_in_percent_insert; [done|]. apply Hg.
  unfold files_in_percent in Hfs. rewrite Forall_lookup in Hfs. by eapply Hfs.
Qed.

Lemma aggregates_update_task (t : string) (g : task_data → task_data) :
  (∀ td, files_in_percent (t_files td) → files_in_percent (t_files (g td))) →
  (∀ td, t_overall_progress (g td) = t_overall_progress td) →
  keeps aggregates_in_percent (update_task t g).
Proof.
  intros Hg Hov w Hw. unfold update_task.
  destruct (tasks w !! t) as [td|] eqn:Htd; [|done].
  cbn [world_of]. pose proof Hw as ((Hfs & _) & Ho & _).
  apply aggregates_set_task; [done|exact (Hg td (Hfs t td Htd))|].
  rewrite Hov. exact (Ho t td Htd).
Qed.

Lemma aggregates_recompute_overall (t : string) :
  keeps aggregates_in_percent (recompute_overall t).
Proof.
  intros w Hw. unfold recompute_overall.
  destruct (tasks w !! t) as [td|] eqn:Htd; [|done].
  destruct (mean_progress (t_files td)) as [x|] eqn:Hx; [|done].
  cbn [world_of]. pose proof Hw as ((Hfs & _) & _ & _).
  apply aggregates_set_task; [done|exact (Hfs t td Htd)|].
  cbn [t_overall_progress with_overall_progress].
  exact (mean_progress_in_percent _ _ (Hfs t td Htd) Hx).
Qed.

Lemma aggregates_serve (r : request_event) (w : world) :
  aggregates_in_percent w → aggregates_in_percent (serve r w).
Proof.
  intros Hw. pose proof Hw as ((Hfs & Hobs) & Hov & Hoo).
  destruct r as [t|t|t].
  - rewrite serve_pause_eq. destruct (tasks w !! t) as [td|] eqn:Htd; [|done].
    pose proof (reset_processing_in_percent _ (Hfs t td Htd)) as Hreset.
    apply aggregates_set_task.
    + by apply (aggregates_frame w).
    + unfold paused_task. cbv zeta.
      by destruct (mean_progress _); cbn [t_files with_overall_progress with_files].
    + unfold paused_task. cbv zeta.
      destruct (mean_progress _) as [x|] eqn:Hx;
        cbn [t_overall_progress with_overall_progress with_files with_flags].
      * exact (mean_progress_in_percent _ _ Hreset Hx).
      * exact (Hov t td Htd).
  - rewrite serve_stop_eq. destruct (tasks w !! t) as [td|] eqn:Htd; [|done].
    apply aggregates_set_task; [done|exact (Hfs t td Htd)|exact (Hov t td Htd)].
  - rewrite serve_status_eq. destruct (tasks w !! t) as [td|] eqn:Htd; [|done].
    split; [|split; [done|]].
    + split; [done|]. cbn [observed set_observed]. apply Forall_app.
      split; [done|]. apply Forall_singleton. exact (Hfs t td Htd).
    + cbn [observed set_observed]. apply Forall_app.
      split; [done|]. apply Forall_singleton. exact (Hov t td Htd).
Qed.

(** X17: the aggregate progress is a percentage at all times.  When every
    progress value and every aggregate, stored or already reported by a
    status query, lies in [0, 100], this still holds after a run of the
    driving loop under any interleaving of requests, after any single
    request, after a resume and after a submission. *)
Theorem aggregate_progress_stays_in_percent
    (t : string) (request : ConvertRequest) (scripts : nat → proc_script)
    (r : request_event) (names : option (list string)) (w : world) :
  aggregates_in_percent w →
  aggregates_in_percent (process_batch_convert E t request scripts w)
  ∧ aggregates_in_percent (serve r w)
  ∧ aggregates_in_percent (world_of (resume_task E t names w))
  ∧ aggregates_in_percent (world_of (convert request t w)).
Proof.
  intros Hw. split; [|split; [by apply aggregates_serve|split]].
  - apply keeps_process_batch_convert; [apply aggregates_frame
      |apply aggregates_serve|apply aggregates_update_file| |
       apply aggregates_recompute_overall|done].
    intros t'. by apply aggregates_update_task.
  - revert w Hw. change (keeps aggregates_in_percent (resume_task E t names)).
    intros w Hw. unfold resume_task.
    destruct (tasks w !! t) as [td0|]; [|done].
    revert w Hw. apply keeps_bind.
    { destruct names as [ns|]; [|apply keeps_skip].
      apply aggregates_update_task; [|done]. intros td Htd.
      cbn [t_files with_total_files with_files]. by apply resync_in_percent. }
    intros _. apply keeps_bind; [by apply aggregates_update_task|]. intros _.
    apply keeps_bind; [apply keeps_gets|]. intros [td|]; [|apply keeps_raise].
    apply keeps_bind; [|intros src; apply keeps_ret].
    destruct (t_source td); [apply keeps_ret|].
    destruct (t_files td); [apply keeps_raise|].
    destruct (path_exists E _); [apply keeps_ret|].
    destruct (path_exists E _); [apply keeps_ret|apply keeps_raise].
  - unfold convert, mbind, M_bind, bind, modify, ret. cbn [world_of].
    apply aggregates_set_task; [done| |apply in_percent_0].
    cbn [t_files]. apply Forall_map, Forall_forall. intros nm _. cbn.
    split; lra.
Qed.

End AggregateRange.

Lemma aggregate_progress_stays_in_percent_witness :
  aggregates_in_percent
    (process_batch_convert E0 "t" two_wavs (λ _, observed_script) world_submitted)
  ∧ aggregates_in_percent (serve (ReqStatus "t") world_submitted)
  ∧ aggregates_in_percent
      (world_of (resume_task E0 "t" (Some ["a.wav"; "c.wav"]) world_submitted))
  ∧ aggregates_in_percent (world_of (convert two_wavs "t" world_submitted)).
Proof.
  apply (aggregate_progress_stays_in_percent E0 "t" two_wavs
           (λ _, observed_script) (ReqStatus "t") (Some ["a.wav"; "c.wav"])
           world_submitted).
  split; [split|split].
  - intros t td H.
    change (tasks world_submitted)
      with (<["t"%string := submitted_task]> (∅ : gmap string task_data)) in H.
    apply lookup_insert_Some in H as [[_ <-]|[_ H]].
    + repeat constructor; cbn; lra.
    + by rewrite lookup_empty in H.
  - constructor.
  - intros t td H.
    change (tasks world_submitted)
      with (<["t"%string := submitted_task]> (∅ : gmap string task_data)) in H.
    apply lookup_insert_Some in H as [[_ <-]|[_ H]].
    + cbn. split; lra.
    + by rewrite lookup_empty in H.
  - constructor.
Defined.

(** ** Lines of output when the duration is unknown *)

Section UnknownDuration.

Variable E : env.

Lemma deliver_app (h : nat) (rc : Z) (evs1 evs2 : list event) (w : world) :
  deliver serve h rc (evs1 ++ evs2) w
  = deliver serve h rc evs2 (deliver serve h rc evs1 w).
Proof. unfold deliver. apply fold_left_app. Qed.

(** X18: when the duration of the input is not known (the probe yields a
    value that is not positive), no line of the encoder's output reaches the
    progress callback: reading the lines only lets the events of the
    suspensions happen, whatever the lines say. *)
Theorem read_lines_without_duration (h : nat) (rc : Z) (duration : Q)
    (cb : option (Q → M unit)) (lines : list (list event * string)) (w : world) :
  (duration <= 0)%Q →
  read_lines serve h rc duration cb lines w
  = Ret tt (deliver serve h rc (concat (map fst lines)) w).
Proof.
  intros Hd. apply Qle_bool_iff in Hd.
  revert w. induction lines as [|[evs line] rest IH]; intros w; [done|].
  cbn [read_lines map fst concat]. rewrite deliver_app, <- IH.
  unfold mbind, M_bind, bind, modify. rewrite Hd. cbn [negb].
  by destruct cb.
Qed.

End UnknownDuration.

Lemma read_lines_without_duration_witness :
  read_lines serve 0 0 0 (Some (progress_callback "t" 0))
    [([Http (ReqStatus "t")], "out_time_ms=5000000"%string)] world_submitted
  = Ret tt (deliver serve 0 0 [Http (ReqStatus "t")] world_submitted).
Proof.
  apply (read_lines_without_duration 0 0 0 (Some (progress_callback "t" 0))
           [([Http (ReqStatus "t")], "out_time_ms=5000000"%string)]
           world_submitted).
  unfold Qle; cbn; lia.
Defined.

(** ** Files that fail before a process exists *)

Section EarlyFailures.

Variables (E : env) (t : string) (request : ConvertRequest)
  (scripts : nat → proc_script).

Lemma start_then_fail (idx : nat) (msg : string) (w w2 : world)
    (td : task_data) (f0 : FileStatus) :
  tasks w !! t = Some td → t_files td !! idx = Some f0 →
  tasks w2
  = <[t := with_files (<[idx := set_status_progress PROCESSING 0 f0]> (t_files td)) td]>
      (tasks w) →
  (update_file t idx (set_failed msg);; ret false) w2
  = Ret false {| tasks := tasks (failed_world t idx msg f0 td w);
                 ACTIVE_PROCESSES := ACTIVE_PROCESSES w2;
                 procs := procs w2; observed := observed w2 |}.
Proof.
  intros Htd Hf0 Hw2. unfold mbind, M_bind, bind.
  assert (Hidx : idx < length (t_files td)) by (by eapply lookup_lt_Some).
  rewrite (update_file_eq t idx _ w2
             (with_files (<[idx := set_status_progress PROCESSING 0 f0]> (t_files td)) td)
             (set_status_progress PROCESSING 0 f0)).
  - unfold ret, set_tasks, failed_world. cbn [tasks t_files with_files].
    rewrite Hw2, insert_insert_eq, list_insert_insert_eq. done.
  - rewrite Hw2. apply lookup_insert_eq.
  - cbn [t_files with_files]. by apply list_lookup_insert_eq.
Qed.


(** X20: a file whose extension is not a supported audio or video format is
    marked Failed with the fixed message, no process is started, and the loop
    goes on with the next file. *)
Theorem unsupported_input_fails_file (idx : nat) (name : string)
    (rest : list string) (w : world) (td : task_data) (f0 : FileStatus) :
  tasks w !! t = Some td → t_stopped td = false →
  t_files td !! idx = Some f0 → status f0 ≠ COMPLETED →
  path_exists E (get_file_path E name (source request)) = true →
  get_media_type (get_file_path E name (source request)) = None →
  batch_loop E t request scripts idx (name :: rest) w
  = batch_loop E t request scripts (S idx) rest
      (failed_world t idx "转换失败" f0 td w).
Proof.
  intros Htd Hstop Hf0 Hst Hex Hmt.
  rewrite (batch_loop_step E t request scripts idx name rest w td f0
             Htd Hstop Hf0 Hst).
  unfold process_one, process_one_body, try_except.
  unfold mbind at 1, M_bind at 1, bind at 1.
  rewrite (update_file_eq t idx _ w td f0 Htd Hf0), Hex. cbn [negb].
  unfold convert_file. rewrite Hmt.
  set (w1 := set_tasks _ w).
  unfold mbind at 1, M_bind at 1, bind at 1. unfold ret at 1.
  by rewrite (start_then_fail idx _ w w1 td f0 Htd Hf0 eq_refl).
Qed.

Lemma cleanup_eq (w : world) :
  truthy t = true → cleanup (Some t) w = set_active (delete t) w.
Proof.
  intros Ht. unfold cleanup. rewrite Ht. cbn [andb].
  destruct (ACTIVE_PROCESSES w !! t) as [h|] eqn:Hreg.
  - by rewrite bool_decide_eq_true_2 by eauto.
  - rewrite bool_decide_eq_false_2 by (by intros [? ?]).
    unfold set_active. rewrite delete_id by done. by destruct w.
Qed.

Lemma convert_file_spawn_error (input_file output_file ffmpeg : string)
    (mt : MediaType) (cb : option (Q → M unit)) (sc : proc_script) (e : exn)
    (w : world) :
  ffmpeg_command E = Some ffmpeg →
  get_media_type input_file = Some mt →
  ps_spawn_error sc = Some e →
  convert_file E serve input_file output_file request cb (Some t) sc w
  = match e with
    | FileNotFoundError msg => Exc (FileNotFoundError msg) (cleanup (Some t) w)
    | _ => Ret (Some false) (cleanup (Some t) w)
    end.
Proof.
  intros Hff Hmt Hspawn. unfold convert_file. rewrite Hmt.
  destruct mt; unfold convert_audio, convert_video, guarded, get_ffmpeg_command,
    run_encoder, spawn, mbind, M_bind, bind; rewrite Hff; unfold ret at 1;
    rewrite Hspawn; by destruct e.
Qed.

Lemma convert_file_without_tool (input_file output_file : string)
    (mt : MediaType) (cb : option (Q → M unit)) (sc : proc_script) (w : world) :
  ffmpeg_command E = None →
  get_media_type input_file = Some mt →
  ∃ msg, get_ffmpeg_command E w = Exc (FileNotFoundError msg) w
         ∧ convert_file E serve input_file output_file request cb (Some t) sc w
           = Exc (FileNotFoundError msg) (cleanup (Some t) w).
Proof.
  intros Hff Hmt. unfold convert_file, get_ffmpeg_command. rewrite Hmt, Hff.
  eexists. split; [reflexivity|].
  destruct mt; unfold convert_audio, convert_video, guarded, get_ffmpeg_command,
    mbind, M_bind, bind; by rewrite Hff.
Qed.

Lemma failed_after_cleanup (idx : nat) (msg : string) (w : world)
    (td : task_data) (f0 : FileStatus) :
  truthy t = true →
  tasks w !! t = Some td → t_files td !! idx = Some f0 →
  (update_file t idx (set_failed msg);; ret false)
    (cleanup (Some t)
       (set_tasks (fun m => <[t := with_files
                                     (<[idx := set_status_progress PROCESSING 0 f0]>
                                        (t_files td)) td]> m) w))
  = Ret false (set_active (delete t) (failed_world t idx msg f0 td w)).
Proof.
  intros Ht Htd Hf0. rewrite (cleanup_eq _ Ht).
  set (w2 := set_active _ _).
  by rewrite (start_then_fail idx msg w w2 td f0 Htd Hf0 eq_refl).
Qed.

(** X21: when the encoder process cannot be started, the file is marked
    Failed, with the text of the exception when it is a [FileNotFoundError]
    and with the fixed message otherwise; no process exists for it, the task
    has no registry entry, and the loop goes on with the next file. *)
Theorem spawn_failure_fails_file (idx : nat) (name ffmpeg : string)
    (rest : list string) (mt : MediaType) (e : exn)
    (w : world) (td : task_data) (f0 : FileStatus) :
  truthy t = true →
  ffmpeg_command E = Some ffmpeg →
  path_exists E (get_file_path E name (source request)) = true →
  get_media_type (get_file_path E name (source request)) = Some mt →
  tasks w !! t = Some td → t_stopped td = false →
  t_files td !! idx = Some f0 → status f0 ≠ COMPLETED →
  ps_spawn_error (scripts idx) = Some e →
  batch_loop E t request scripts idx (name :: rest) w
  = batch_loop E t request scripts (S idx) rest
      (set_active (delete t) (failed_world t idx (recorded_error e) f0 td w)).
Proof.
  intros Ht Hff Hex Hmt Htd Hstop Hf0 Hst Hspawn.
  rewrite (batch_loop_step E t request scripts idx name rest w td f0
             Htd Hstop Hf0 Hst).
  unfold process_one, process_one_body, try_except.
  unfold mbind at 1, M_bind at 1, bind at 1.
  rewrite (update_file_eq t idx _ w td f0 Htd Hf0), Hex. cbn [negb].
  unfold mbind at 1, M_bind at 1, bind at 1.
  rewrite (convert_file_spawn_error _ _ ffmpeg mt _ _ e _ Hff Hmt Hspawn).
  destruct e; cbn [exn_str recorded_error];
    by rewrite (failed_after_cleanup idx _ w td f0 Ht Htd Hf0).
Qed.

(** X22: when the encoder executable cannot be found, the file is marked
    Failed with the text of the exception [get_ffmpeg_command] raised, no
    process is started, and the loop goes on with the next file. *)
Theorem missing_encoder_fails_file (idx : nat) (name : string)
    (rest : list string) (mt : MediaType)
    (w : world) (td : task_data) (f0 : FileStatus) :
  truthy t = true →
  ffmpeg_command E = None →
  path_exists E (get_file_path E name (source request)) = true →
  get_media_type (get_file_path E name (source request)) = Some mt →
  tasks w !! t = Some td → t_stopped td = false →
  t_files td !! idx = Some f0 → status f0 ≠ COMPLETED →
  ∃ msg,
    get_ffmpeg_command E w = Exc (FileNotFoundError msg) w
    ∧ batch_loop E t request scripts idx (name :: rest) w
      = batch_loop E t request scripts (S idx) rest
          (set_active (delete t) (failed_world t idx msg f0 td w)).
Proof.
  intros Ht Hff Hex Hmt Htd Hstop Hf0 Hst.
  set (w1 := set_tasks (fun m => <[t := with_files
                (<[idx := set_status_progress PROCESSING 0 f0]> (t_files td)) td]> m) w).
  destruct (convert_file_without_tool
              (get_file_path E name (source request))
              (output_path_of E name (output_format request)) mt
              (Some (progress_callback t idx)) (scripts idx) w1 Hff Hmt)
    as (msg & Hraise & Hconv).
  exists msg. split.
  { unfold get_ffmpeg_command in *. rewrite Hff in *. unfold raise in *.
    congruence. }
  rewrite (batch_loop_step E t request scripts idx name rest w td f0
             Htd Hstop Hf0 Hst).
  unfold process_one, process_one_body, try_except.
  unfold mbind at 1, M_bind at 1, bind at 1.
  rewrite (update_file_eq t idx _ w td f0 Htd Hf0), Hex. cbn [negb].
  unfold mbind at 1, M_bind at 1, bind at 1. fold w1. rewrite Hconv.
  cbn [exn_str]. unfold w1.
  by rewrite (failed_after_cleanup idx _ w td f0 Ht Htd Hf0).
Qed.

End EarlyFailures.


Lemma unsupported_input_fails_file_witness :
  batch_loop E0 "t" two_wavs (λ _, ok_script) 0 ["notes.txt"; "b.wav"]
    world_submitted
  = batch_loop E0 "t" two_wavs (λ _, ok_script) 1 ["b.wav"]
      (failed_world "t" 0 "转换失败" (file_in "a.wav" PENDING 0 None)
         submitted_task world_submitted).
Proof.
  apply (unsupported_input_fails_file E0 "t" two_wavs (λ _, ok_script)
           0 "notes.txt" ["b.wav"] world_submitted submitted_task
           (file_in "a.wav" PENDING 0 None)); try reflexivity.
  discriminate.
Defined.

Lemma spawn_failure_fails_file_witness :
  batch_loop E0 "t" two_wavs (λ _, spawn_fails (OSError "Permission denied"))
    0 ["a.wav"; "b.wav"] world_submitted
  = batch_loop E0 "t" two_wavs (λ _, spawn_fails (OSError "Permission denied"))
      1 ["b.wav"]
      (set_active (delete "t"%string)
         (failed_world "t" 0 "转换失败" (file_in "a.wav" PENDING 0 None)
            submitted_task world_submitted)).
Proof.
  apply (spawn_failure_fails_file E0 "t" two_wavs
           (λ _, spawn_fails (OSError "Permission denied"))
           0 "a.wav" "ffmpeg" ["b.wav"] AUDIO (OSError "Permission denied")
           world_submitted submitted_task (file_in "a.wav" PENDING 0 None));
    try reflexivity.
  discriminate.
Defined.

Lemma missing_encoder_fails_file_witness :
  ∃ msg,
    get_ffmpeg_command E_without_tool world_submitted
    = Exc (FileNotFoundError msg) world_submitted
    ∧ batch_loop E_without_tool "t" two_wavs (λ _, ok_script) 0
        ["a.wav"; "b.wav"] world_submitted
      = batch_loop E_without_tool "t" two_wavs (λ _, ok_script) 1 ["b.wav"]
          (set_active (delete "t"%string)
             (failed_world "t" 0 msg (file_in "a.wav" PENDING 0 None)
                submitted_task world_submitted)).
Proof.
  apply (missing_encoder_fails_file E_without_tool "t" two_wavs (λ _, ok_script)
           0 "a.wav" ["b.wav"] AUDIO world_submitted submitted_task
           (file_in "a.wav" PENDING 0 None)); try reflexivity.
  discriminate.
Defined.

(** ** Files that are interrupted, and tasks that are finished *)

Section LoopOutcomes.

Variables (E : env) (t : string) (request : ConvertRequest)
  (scripts : nat → proc_script).





End LoopOutcomes.




(** ** Termination touches one process only *)

(** X26: [terminate_task_processes] signals at most one process, the one
    registered for the task, and only when its exit has not been collected;
    the exit status and the command line of every process are as before. *)
Theorem terminate_signals_only_live_registered (task_id : string) (w : world)
    (h : nat) (p : Process) :
  procs w !! h = Some p →
  ∃ p', procs (world_of (terminate_task_processes task_id w)) !! h = Some p'
        ∧ returncode p' = returncode p
        ∧ p_cmd p' = p_cmd p
        ∧ (terminated p' = terminated p
           ∨ (terminated p' = true
              ∧ ACTIVE_PROCESSES w !! task_id = Some h
              ∧ returncode p = None ∧ terminate_raises p = false)).
Proof.
  intros Hp. rewrite terminate_task_processes_eq. cbn [world_of procs terminated_world].
  unfold terminated_procs.
  destruct (ACTIVE_PROCESSES w !! task_id) as [h'|] eqn:Hreg; [|by eauto 10].
  destruct (procs w !! h') as [p'|] eqn:Hp'; [|by eauto 10].
  destruct (returncode p') eqn:Hrc; [by eauto 10|].
  destruct (terminate_raises p') eqn:Hr; [by eauto 10|].
  destruct (decide (h' = h)) as [->|Hne].
  - assert (p' = p) as -> by congruence.
    exists (mark_terminated p).
    split; [apply list_lookup_insert_eq; by eapply lookup_lt_Some|].
    cbn. eauto 10.
  - exists p. rewrite list_lookup_insert_ne by done. eauto 10.
Qed.

Lemma terminate_signals_only_live_registered_witness :
  ∃ p', procs (world_of (terminate_task_processes "t" world_three)) !! 0%nat
        = Some p'
        ∧ returncode p' = returncode running_process
        ∧ p_cmd p' = p_cmd running_process
        ∧ (terminated p' = terminated running_process
           ∨ (terminated p' = true
              ∧ ACTIVE_PROCESSES world_three !! "t"%string = Some 0%nat
              ∧ returncode running_process = None
              ∧ terminate_raises running_process = false)).
Proof.
  apply (terminate_signals_only_live_registered "t" world_three 0 running_process).
  reflexivity.
Defined.

(** ** Name conflicts of uploads *)

Section ConflictProps.


Lemma string_app_length (a b : string) :
  String.length (a +:+ b) = (String.length a + String.length b)%nat.
Proof.
  induction a as [|x a IH]; [done|].
  change (S (String.length (a +:+ b)) = S (String.length a + String.length b)).
  by rewrite IH.
Qed.







End ConflictProps.


(** ** Discovery of the executables *)

Section Discovery.

Import Binary.

Variable B : binenv.

Lemma first_existing_Some (exe_name : string) (cands : list string) (r : string) :
  first_existing B exe_name cands = Some r →
  exists_ B r = true
  ∧ ∃ before c after,
      cands = before ++ c :: after ∧ r = located B exe_name c
      ∧ Forall (λ c', exists_ B (located B exe_name c') = false) before.
Proof.
  induction cands as [|c rest IH]; [done|]. cbn [first_existing].
  destruct (exists_ B (located B exe_name c)) eqn:Hex.
  - intros [= <-]. split; [done|]. by exists [], c, rest.
  - intros H. destruct (IH H) as (Hr & before & c' & after & -> & -> & Hb).
    split; [done|]. exists (c :: before), c', after.
    split; [done|]. split; [done|]. by constructor.
Qed.

Lemma first_existing_None (exe_name : string) (cands : list string) :
  first_existing B exe_name cands = None
  ↔ Forall (λ c, exists_ B (located B exe_name c) = false) cands.
Proof.
  induction cands as [|c rest IH]; [done|]. cbn [first_existing].
  destruct (exists_ B (located B exe_name c)) eqn:Hex.
  - split; [done|]. intros H. apply Forall_cons in H as [H _]. congruence.
  - rewrite IH. split; [by constructor|]. by intros [_ ?]%Forall_cons.
Qed.

(** X28: a path [_resolve_binary] returns is the one stored under the key of
    the call; on a cache miss it is the path of the first candidate that
    exists, in the order environment variable, search path, default
    directories.  Once stored it is returned by every later call without a
    look at the system, whatever has changed there, and no other key of the
    cache is touched. *)
Theorem resolve_binary_caches_first_existing (B' : binenv)
    (env_var executable_name : string) (cache cache' : gmap string string)
    (r : string) :
  _resolve_binary B env_var executable_name cache = (inl r, cache') →
  let key := env_var +:+ ":" +:+ executable_name in
  cache' !! key = Some r
  ∧ (∀ k, k ≠ key → cache' !! k = cache !! k)
  ∧ (cache !! key = None →
     exists_ B r = true
     ∧ ∃ before c after,
         candidates B env_var executable_name = before ++ c :: after
         ∧ r = located B (_exe_name B executable_name) c
         ∧ Forall (λ c', exists_ B (located B (_exe_name B executable_name) c')
                         = false) before)
  ∧ _resolve_binary B' env_var executable_name cache' = (inl r, cache').
Proof.
  intros H key. unfold _resolve_binary in *. fold key in H |- *.
  destruct (cache !! key) as [r0|] eqn:Hc.
  - injection H as <- <-. rewrite Hc. done.
  - destruct (first_existing B _ _) as [r0|] eqn:Hfirst; [|done].
    injection H as <- <-. rewrite lookup_insert_eq.
    split; [done|]. split; [intros k Hk; by rewrite lookup_insert_ne|].
    split; [|done]. intros _. by apply first_existing_Some.
Qed.

(** X29: [_resolve_binary] raises exactly when the key is not in the cache
    and no candidate path exists; the exception is a [FileNotFoundError]
    naming the executable and the environment variable, and the cache is left
    as it was, so that a later call searches again. *)
Theorem resolve_binary_failure (env_var executable_name : string)
    (cache : gmap string string) :
  let key := env_var +:+ ":" +:+ executable_name in
  (cache !! key = None
   ∧ Forall (λ c, exists_ B (located B (_exe_name B executable_name) c) = false)
       (candidates B env_var executable_name))
  ↔ _resolve_binary B env_var executable_name cache
    = (inr (FileNotFoundError
              ("未找到 " +:+ executable_name
               +:+ " 可执行文件，请将其加入 PATH 或设置环境变量 " +:+ env_var)),
       cache).
Proof.
  intros key. unfold _resolve_binary. fold key.
  rewrite <- first_existing_None.
  destruct (cache !! key) as [r0|].
  { split; [by intros [? _]|done]. }
  destruct (first_existing B _ _) as [r0|]; [split; [by intros [_ ?]|done]|].
  done.
Qed.

End Discovery.

Lemma resolve_binary_caches_first_existing_witness :
  let key := ("FFMPEG_PATH" +:+ ":" +:+ "ffmpeg")%string in
  let cache' : gmap string string := {[ key := "/usr/local/bin/ffmpeg"%string ]} in
  cache' !! key = Some "/usr/local/bin/ffmpeg"%string
  ∧ (∀ k, k ≠ key → cache' !! k = (∅ : gmap string string) !! k)
  ∧ ((∅ : gmap string string) !! key = None →
     Binary.exists_ B_local "/usr/local/bin/ffmpeg" = true
     ∧ ∃ before c after,
         Binary.candidates B_local "FFMPEG_PATH" "ffmpeg" = before ++ c :: after
         ∧ "/usr/local/bin/ffmpeg"%string
           = Binary.located B_local (Binary._exe_name B_local "ffmpeg") c
         ∧ Forall (λ c', Binary.exists_ B_local
                           (Binary.located B_local
                              (Binary._exe_name B_local "ffmpeg") c') = false)
             before)
  ∧ Binary._resolve_binary B_bare "FFMPEG_PATH" "ffmpeg" cache'
    = (inl "/usr/local/bin/ffmpeg"%string, cache').
Proof.
  apply (resolve_binary_caches_first_existing B_local B_bare
           "FFMPEG_PATH" "ffmpeg" ∅ _ "/usr/local/bin/ffmpeg").
  reflexivity.
Defined.

Lemma resolve_binary_failure_witness :
  Binary._resolve_binary B_bare "FFMPEG_PATH" "ffmpeg" ∅
  = (inr (FileNotFoundError
            ("未找到 " +:+ "ffmpeg"
             +:+ " 可执行文件，请将其加入 PATH 或设置环境变量 " +:+ "FFMPEG_PATH")),
     ∅).
Proof.
  apply (resolve_binary_failure B_bare "FFMPEG_PATH" "ffmpeg" ∅).
  split; [reflexivity|]. repeat constructor.
Defined.

(** ** The output format a resume infers from a converted file *)

Section FormatRoundTrip.

Variable E : env.

Lemma string_app_cons (c : ascii) (a b : string) :
  String c a +:+ b = String c (a +:+ b).
Proof. reflexivity. Qed.

Lemma string_app_nil (b : string) : "" +:+ b = b.
Proof. reflexivity. Qed.

Lemma split_on_nonempty (sep : ascii) (s : string) : PyPath.split_on sep s ≠ [].
Proof.
  destruct s as [|c s]; [done|]. cbn [PyPath.split_on].
  destruct (Ascii.eqb c sep); [done|]. by destruct (PyPath.split_on sep s).
Qed.

Lemma split_on_app_sep (sep : ascii) (a b : string) :
  PyPath.split_on sep (a +:+ String sep b)
  = PyPath.split_on sep a ++ PyPath.split_on sep b.
Proof.
  induction a as [|c a IH].
  - rewrite string_app_nil. cbn [PyPath.split_on]. by rewrite Ascii.eqb_refl.
  - rewrite string_app_cons. cbn [PyPath.split_on]. rewrite IH.
    destruct (Ascii.eqb c sep); [done|].
    pose proof (split_on_nonempty sep a) as Hne.
    by destruct (PyPath.split_on sep a).
Qed.

Lemma split_on_without_sep (sep : ascii) (b : string) :
  has_char sep b = false → PyPath.split_on sep b = [b].
Proof.
  induction b as [|c b IH]; [done|]. cbn [has_char PyPath.split_on].
  intros [Hc Hb]%orb_false_iff. rewrite Hc, (IH Hb). done.
Qed.

Lemma split_on_pieces (sep : ascii) (s : string) :
  Forall (λ p, has_char sep p = false) (PyPath.split_on sep s).
Proof.
  induction s as [|c s IH]; [by repeat constructor|]. cbn [PyPath.split_on].
  destruct (Ascii.eqb c sep) eqn:Hc; [by constructor|].
  destruct (PyPath.split_on sep s) as [|h r].
  - repeat constructor. cbn [has_char]. by rewrite Hc.
  - apply Forall_cons in IH as [Hh Hr]. constructor; [|done].
    cbn [has_char]. by rewrite Hc, Hh.
Qed.

(** The file name of [a/b] is [b], for a component [b]. *)
Lemma name_of_joined (a b : string) :
  has_char "/" b = false → b ≠ ""%string → b ≠ "."%string →
  PyPath.name (a +:+ String "/" b) = b.
Proof.
  intros Hb Hne Hdot. unfold PyPath.name, PyPath.parts.
  rewrite split_on_app_sep, (split_on_without_sep _ _ Hb), List.filter_app.
  cbn [List.filter].
  destruct (String.eqb_spec b ""); [done|].
  destruct (String.eqb_spec b "."); [done|].
  cbn [orb negb]. apply last_last.
Qed.

Lemma rfind_without (c : ascii) (b : string) :
  has_char c b = false → PyPath.rfind c b = None.
Proof.
  induction b as [|x b IH]; [done|]. cbn [has_char PyPath.rfind].
  intros [Hx Hb]%orb_false_iff. by rewrite (IH Hb), Hx.
Qed.

Lemma rfind_last (c : ascii) (a b : string) :
  has_char c b = false →
  PyPath.rfind c (a +:+ String c b) = Some (String.length a).
Proof.
  intros Hb. induction a as [|x a IH].
  - rewrite string_app_nil. cbn [PyPath.rfind].
    by rewrite (rfind_without _ _ Hb), Ascii.eqb_refl.
  - rewrite string_app_cons. cbn [PyPath.rfind String.length]. by rewrite IH.
Qed.

Lemma substring_all (b : string) : substring 0 (String.length b) b = b.
Proof. induction b as [|x b IH]; [done|]. cbn. by rewrite IH. Qed.

Lemma substring_tail (a b : string) :
  substring (String.length a) (String.length b) (a +:+ b) = b.
Proof.
  induction a as [|x a IH].
  - rewrite string_app_nil. apply substring_all.
  - rewrite string_app_cons. cbn [String.length substring]. exact IH.
Qed.

Lemma lstrip_dot_of_suffix (fmt : string) :
  has_char "." fmt = false → lstrip_dot (String "." fmt) = fmt.
Proof.
  intros H. cbn [lstrip_dot]. rewrite Ascii.eqb_refl.
  destruct fmt as [|c t]; [done|]. cbn [has_char] in H.
  apply orb_false_iff in H as [Hc _]. cbn [lstrip_dot]. by rewrite Hc.
Qed.

(** The suffix of [stem.fmt] is [.fmt]. *)
Lemma suffix_of_joined (a stem fmt : string) :
  stem ≠ ""%string → has_char "/" stem = false →
  fmt ≠ ""%string → has_char "." fmt = false → has_char "/" fmt = false →
  PyPath.suffix (a +:+ String "/" (stem +:+ String "." fmt)) = String "." fmt.
Proof.
  intros Hstem Hslash Hfmt Hdot Hfslash.
  set (nm := stem +:+ String "." fmt).
  assert (Hnm : PyPath.name (a +:+ String "/" nm) = nm).
  { apply name_of_joined.
    - unfold nm. clear -Hslash Hfslash.
      induction stem as [|x s IH].
      + rewrite string_app_nil. cbn [has_char]. by rewrite Hfslash.
      + rewrite string_app_cons. cbn [has_char] in *.
        apply orb_false_iff in Hslash as [Hx Hs]. by rewrite Hx, (IH Hs).
    - unfold nm. by destruct stem.
    - unfold nm. destruct stem as [|x [|y s]]; [done| |done].
      rewrite string_app_cons, string_app_nil. by destruct fmt. }
  unfold PyPath.suffix. rewrite Hnm. unfold PyPath.suffix_index.
  unfold nm at 1. rewrite (rfind_last _ _ _ Hdot).
  assert (Hlen : String.length nm
                 = (String.length stem + S (String.length fmt))%nat).
  { unfold nm. by rewrite string_app_length. }
  assert (0 < String.length stem)%nat by (destruct stem; [done|cbn; lia]).
  assert (0 < String.length fmt)%nat by (destruct fmt; [done|cbn; lia]).
  rewrite Hlen.
  replace (0 <? String.length stem)%nat with true
    by (symmetry; apply Nat.ltb_lt; lia).
  replace (String.length stem <? String.length stem + S (String.length fmt) - 1)%nat
    with true by (symmetry; apply Nat.ltb_lt; lia).
  cbn [andb].
  replace (String.length stem + S (String.length fmt) - String.length stem)%nat
    with (String.length (String "." fmt)) by (cbn [String.length]; lia).
  apply substring_tail.
Qed.

Lemma has_char_substring (c : ascii) (s : string) (n m : nat) :
  has_char c s = false → has_char c (substring n m s) = false.
Proof.
  revert n m. induction s as [|x s IH]; intros n m H.
  - by destruct n, m.
  - cbn [has_char] in H. apply orb_false_iff in H as [Hx Hs].
    destruct n as [|n]; destruct m as [|m]; cbn [substring has_char]; try done.
    + by rewrite Hx, (IH 0%nat m Hs).
    + by apply IH.
    + by apply IH.
Qed.

(** The stem of a name with at least one component is a non-empty text
    without a separator. *)
Lemma stem_of_component (name : string) :
  PyPath.parts name ≠ [] →
  PyPath.stem name ≠ ""%string ∧ has_char "/" (PyPath.stem name) = false.
Proof.
  intros Hparts.
  set (nm := PyPath.name name).
  assert (Hin : In nm (PyPath.parts name)).
  { unfold nm, PyPath.name.
    destruct (exists_last Hparts) as (l & x & ->). rewrite last_last.
    apply in_or_app. right. by left. }
  unfold PyPath.parts in Hin. apply filter_In in Hin as [Hin Hkeep].
  assert (Hslash : has_char "/" nm = false).
  { pose proof (split_on_pieces "/" name) as Hall.
    rewrite Forall_forall in Hall. apply Hall. by apply list_elem_of_In. }
  assert (Hne : nm ≠ ""%string).
  { intros Heq. rewrite Heq in Hkeep. done. }
  unfold PyPath.stem. fold nm. unfold PyPath.suffix_index.
  destruct (PyPath.rfind "." nm) as [i|]; [|done].
  destruct (0 <? i)%nat eqn:Hi; [|done].
  destruct (i <? String.length nm - 1)%nat eqn:Hi2; [|done].
  cbn [andb]. split; [|by apply has_char_substring].
  apply Nat.ltb_lt in Hi. destruct i as [|i]; [lia|].
  destruct nm; [done|]. done.
Qed.

(** X30: the output format survives a round trip.  When the first file of a
    task that records an output records the path the driving loop derives
    for a name with at least one component and a requested format that is
    not empty and holds neither a dot nor a separator, the format a resume
    infers is the requested one. *)
Theorem inferred_format_round_trip (name fmt : string)
    (pre post : list FileStatus) (f : FileStatus) :
  PyPath.parts name ≠ [] →
  fmt ≠ ""%string → has_char "." fmt = false → has_char "/" fmt = false →
  (∀ g, g ∈ pre → truthy_opt (output_file g) = false) →
  output_file f = Some (output_path_of E name fmt) →
  infer_output_format (pre ++ f :: post) = fmt.
Proof.
  intros Hparts Hfmt Hdot Hslash Hpre Hf.
  destruct (stem_of_component name Hparts) as [Hstem Hsslash].
  assert (Hshape : ∃ a, output_path_of E name fmt
                        = a +:+ String "/" (PyPath.stem name +:+ String "." fmt)).
  { unfold output_path_of. destruct (PyPath.parent_parts name); eauto. }
  destruct Hshape as [a Hshape].
  rewrite (infer_output_format_first pre post f _ Hpre Hf).
  - rewrite Hshape, suffix_of_joined by done. by apply lstrip_dot_of_suffix.
  - rewrite Hshape. by destruct a.
Qed.

End FormatRoundTrip.

Lemma inferred_format_round_trip_witness :
  infer_output_format
    ([file_in "a.wav" FAILED 0 None]
     ++ file_in "b.wav" COMPLETED 100 (Some (output_path_of E0 "b.wav" "mp3"))
        :: [file_in "c.wav" PENDING 0 None])
  = "mp3"%string.
Proof.
  apply (inferred_format_round_trip E0 "b.wav" "mp3"
           [file_in "a.wav" FAILED 0 None] [file_in "c.wav" PENDING 0 None]
           (file_in "b.wav" COMPLETED 100 (Some (output_path_of E0 "b.wav" "mp3"))));
    try reflexivity; try discriminate.
  intros g Hg. apply list_elem_of_singleton in Hg as ->. reflexivity.
Defined.
